(** * OrderService: the order aggregate and its service layer

    A shallow embedding of [pkg/domain/service/order.go] (the five service
    operations), of [pkg/domain/model/event.go] (the four domain events) and
    of the in-memory repository and dispatcher that the package's tests run
    the service against ([pkg/domain/tests/orderservice_test.go]).

    The service talks to two interfaces ([model.OrderRepository] and
    [EventDispatcher]) and to the wall clock.  Every operation is therefore
    embedded as a finite program over the calls it makes; a program is run
    against an environment that answers the calls, over a memory holding the
    Go heap of [*model.Order] objects.  Running a program yields its result,
    the final memory and the log of all calls made with their answers. *)

From stdpp Require Import base option list gmap strings.

Local Open Scope Z_scope.

(** ** Basic types *)

(** [uuid.UUID] is a 16-byte array; it is kept as the 128-bit number the
    bytes spell.  [uuid.Nil] is the all-zero value. *)
Definition UUID := N.

Definition uuid_Nil : UUID := 0%N.

(** [time.Time]: an instant, in nanoseconds.  [UTC()] changes the location
    attached to an instant, not the instant. *)
Definition Time := Z.

(** [float64], kept as its 64-bit pattern: the service only copies prices. *)
Definition float64 := Z.

(** Modelled from the spec: the declaration of [model.OrderStatus] is not
    part of the sources at hand; the spec gives it as the enumeration
    [{Open, Paid, Shipped, Cancelled, ...}].  [OtherStatus] stands for the
    members the spec leaves unnamed. *)
Inductive OrderStatus : Set :=
| Open
| Paid
| Shipped
| Cancelled
| OtherStatus (tag : N).

#[global] Instance OrderStatus_eq_dec : EqDecision OrderStatus.
Proof. solve_decision. Defined.

Module Item.
(** Modelled from the spec: [model.Item] is declared in a file that is not
    part of the sources at hand; the fields are the ones the service and the
    tests read and write, with the meaning the spec gives. *)
Record t : Set := mk {
  ID : UUID;
  ProductID : UUID;
  Price : float64
}.
End Item.

Module Order.
(** Modelled from the spec: [model.Order] is declared in the same missing
    file; the fields are those of the spec's data model, under the names the
    service and the tests use.  [Items] is a slice, kept as the list of its
    elements. *)
Record t : Set := mk {
  ID : UUID;
  CustomerID : UUID;
  Status : OrderStatus;
  Items : list Item.t;
  CreatedAt : Time;
  UpdatedAt : Time;
  DeletedAt : option Time   (* *time.Time, nil when not deleted *)
}.
End Order.

(** The errors that travel through the service.  [ErrInvalidOrderStatus] and
    [ErrItemNotFound] are the service's own; [ErrOrderNotFound] is
    [model.ErrOrderNotFound], which the repository of the tests returns;
    [ErrOther] is any other error a collaborator may return. *)
Inductive Err : Set :=
| ErrInvalidOrderStatus
| ErrItemNotFound
| ErrOrderNotFound
| ErrOther (msg : string).

(** Go's [error]: [None] is [nil]. *)
Definition error := option Err.

Definition is_nil (err : error) : bool :=
  match err with None => true | Some _ => false end.

(** ** Domain events (event.go) *)

Inductive Event : Set :=
| OrderCreated (OrderID CustomerID : UUID)
| OrderItemsChanged (OrderID : UUID) (AddedItems RemovedItems : list UUID)
| OrderStatusChanged (OrderID : UUID) (NewStatus : OrderStatus)
| OrderDeleted (OrderID : UUID).

Definition Event_Type (e : Event) : string :=
  match e with
  | OrderCreated _ _ => "OrderCreated"%string
  | OrderItemsChanged _ _ _ => "OrderItemsChanged"%string
  | OrderStatusChanged _ _ => "OrderStatusChanged"%string
  | OrderDeleted _ => "OrderDeleted"%string
  end.

(** ** The heap of orders *)

(** A [*model.Order]: [None] is the nil pointer. *)
Definition loc := positive.

Abbreviation ptr := (option loc).

(** An assignment to one field of an order reached through a pointer. *)
Inductive FieldWrite : Set :=
| SetStatusField (status : OrderStatus)      (* order.Status = status *)
| SetItemsField (items : list Item.t)        (* order.Items = items *)
| SetUpdatedAtField (t : Time)               (* order.UpdatedAt = t *)
| SetDeletedAtField (t : option Time).       (* order.DeletedAt = t *)

Definition apply_write (w : FieldWrite) (o : Order.t) : Order.t :=
  match w with
  | SetStatusField s =>
      Order.mk (Order.ID o) (Order.CustomerID o) s (Order.Items o)
               (Order.CreatedAt o) (Order.UpdatedAt o) (Order.DeletedAt o)
  | SetItemsField l =>
      Order.mk (Order.ID o) (Order.CustomerID o) (Order.Status o) l
               (Order.CreatedAt o) (Order.UpdatedAt o) (Order.DeletedAt o)
  | SetUpdatedAtField t =>
      Order.mk (Order.ID o) (Order.CustomerID o) (Order.Status o) (Order.Items o)
               (Order.CreatedAt o) t (Order.DeletedAt o)
  | SetDeletedAtField t =>
      Order.mk (Order.ID o) (Order.CustomerID o) (Order.Status o) (Order.Items o)
               (Order.CreatedAt o) (Order.UpdatedAt o) t
  end.

(** ** Programs over the calls the service makes *)

Inductive Call : Type -> Type :=
| repo_NextID : Call (UUID * error)
| repo_Store (order : ptr) : Call error
| repo_Find (id : UUID) : Call (ptr * error)
| repo_Delete (id : UUID) : Call error
| dispatcher_Dispatch (event : Event) : Call error
| time_Now : Call Time
| new_Order (o : Order.t) : Call ptr            (* &model.Order{...} *)
| load (p : ptr) : Call Order.t                 (* a read through p *)
| assign (p : ptr) (w : FieldWrite) : Call unit. (* a write through p *)

Inductive Prog (A : Type) : Type :=
| Ret (a : A)
| Vis (X : Type) (c : Call X) (k : X -> Prog A).

Arguments Ret {A} a.
Arguments Vis {A X} c k.

Declare Scope prog_scope.

Delimit Scope prog_scope with prog.

Notation "x <- c ;; k" := (Vis c (fun x => k))
  (at level 20, c at level 99, k at level 200, only parsing) : prog_scope.

Notation "' pat <- c ;; k" := (Vis c (fun x => let 'pat := x in k))
  (at level 20, pat pattern, c at level 99, k at level 200, only parsing) : prog_scope.

Local Open Scope prog_scope.

(** ** The service (order.go) *)

(** The scan of [DeleteItem]: the index of the first item whose ID is
    [itemID], counting from [i]; -1 when the loop runs to the end. *)
Fixpoint find_item_index (items : list Item.t) (itemID : UUID) (i : Z) : Z :=
  match items with
  | [] => -1
  | item :: rest =>
      if decide (Item.ID item = itemID) then i
      else find_item_index rest itemID (i + 1)
  end.

(** [append(items[:itemIndex], items[itemIndex+1:]...)]: the items after
    the index are moved one place down, and the slice is one shorter.  A
    slice is kept as the list of its elements: the order holds the only
    reference to the array behind its items. *)
Definition remove_at (items : list Item.t) (itemIndex : Z) : list Item.t :=
  take (Z.to_nat itemIndex) items ++ drop (Z.to_nat (itemIndex + 1)) items.

Definition CreateOrder (customerID : UUID) : Prog (UUID * error) :=
  '(orderID, err) <- repo_NextID ;;
  if negb (is_nil err) then Ret (uuid_Nil, err) else
  currentTime <- time_Now ;;
  order <- new_Order (Order.mk orderID customerID Open [] currentTime currentTime None) ;;
  err <- repo_Store order ;;
  if negb (is_nil err) then Ret (uuid_Nil, err) else
  err <- dispatcher_Dispatch (OrderCreated orderID customerID) ;;
  Ret (orderID, err).

Definition DeleteOrder (orderID : UUID) : Prog error :=
  '(_, err) <- repo_Find orderID ;;
  if negb (is_nil err) then Ret err else
  err <- repo_Delete orderID ;;
  if negb (is_nil err) then Ret err else
  err <- dispatcher_Dispatch (OrderDeleted orderID) ;;
  Ret err.

Definition SetStatus (orderID : UUID) (status : OrderStatus) : Prog error :=
  '(order, err) <- repo_Find orderID ;;
  if negb (is_nil err) then Ret err else
  o <- load order ;;
  if decide (Order.Status o = Cancelled) then Ret (Some ErrInvalidOrderStatus) else
  _ <- assign order (SetStatusField status) ;;
  now <- time_Now ;;
  _ <- assign order (SetUpdatedAtField now) ;;
  err <- repo_Store order ;;
  if negb (is_nil err) then Ret err else
  err <- dispatcher_Dispatch (OrderStatusChanged orderID status) ;;
  Ret err.

Definition AddItem (orderID productID : UUID) (price : float64) : Prog (UUID * error) :=
  '(order, err) <- repo_Find orderID ;;
  if negb (is_nil err) then Ret (uuid_Nil, err) else
  o <- load order ;;
  if decide (Order.Status o <> Open) then Ret (uuid_Nil, Some ErrInvalidOrderStatus) else
  '(itemID, err) <- repo_NextID ;;
  if negb (is_nil err) then Ret (uuid_Nil, err) else
  o <- load order ;;
  _ <- assign order (SetItemsField (Order.Items o ++ [Item.mk itemID productID price])) ;;
  now <- time_Now ;;
  _ <- assign order (SetUpdatedAtField now) ;;
  err <- repo_Store order ;;
  if negb (is_nil err) then Ret (uuid_Nil, err) else
  err <- dispatcher_Dispatch (OrderItemsChanged orderID [itemID] []) ;;
  Ret (itemID, err).

Definition DeleteItem (orderID itemID : UUID) : Prog error :=
  '(order, err) <- repo_Find orderID ;;
  if negb (is_nil err) then Ret err else
  o <- load order ;;
  if decide (Order.Status o <> Open) then Ret (Some ErrInvalidOrderStatus) else
  let itemIndex := find_item_index (Order.Items o) itemID 0 in
  if decide (itemIndex = -1) then Ret (Some ErrItemNotFound) else
  _ <- assign order (SetItemsField (remove_at (Order.Items o) itemIndex)) ;;
  now <- time_Now ;;
  _ <- assign order (SetUpdatedAtField now) ;;
  err <- repo_Store order ;;
  if negb (is_nil err) then Ret err else
  err <- dispatcher_Dispatch (OrderItemsChanged orderID [] [itemID]) ;;
  Ret err.

(** ** Running a program *)

(** The memory a program runs over: the heap of orders, the number of times
    the clock has been read, and the private state of the collaborators. *)
Record Mem (S : Type) : Type := mkMem {
  heap : gmap loc Order.t;
  ticks : nat;
  ext : S
}.

Arguments mkMem {S} heap ticks ext.
Arguments heap {S} m.
Arguments ticks {S} m.
Arguments ext {S} m.

Definition deref {S} (m : Mem S) (p : ptr) : option Order.t :=
  match p with
  | Some l => heap m !! l
  | None => None
  end.

Definition write {S} (p : ptr) (w : FieldWrite) (m : Mem S) : option (Mem S) :=
  match p with
  | Some l =>
      match heap m !! l with
      | Some o => Some (mkMem (<[l := apply_write w o]> (heap m)) (ticks m) (ext m))
      | None => None
      end
  | None => None
  end.

Definition alloc {S} (o : Order.t) (m : Mem S) : ptr * Mem S :=
  let l := fresh (dom (heap m)) in
  (Some l, mkMem (<[l := o]> (heap m)) (ticks m) (ext m)).

(** An environment answers the calls to the two interfaces and gives the
    time of every reading of the clock.  A collaborator holds the pointers it
    is handed, so its answers may depend on the heap and change it; an answer
    of [None] is a panic inside the collaborator. *)
Record Env (S : Type) : Type := mkEnv {
  wall_clock : nat -> Time;
  on_NextID : Mem S -> option ((UUID * error) * Mem S);
  on_Store : ptr -> Mem S -> option (error * Mem S);
  on_Find : UUID -> Mem S -> option ((ptr * error) * Mem S);
  on_Delete : UUID -> Mem S -> option (error * Mem S);
  on_Dispatch : Event -> Mem S -> option (error * Mem S)
}.

Arguments mkEnv {S}.
Arguments wall_clock {S} e.
Arguments on_NextID {S} e.
Arguments on_Store {S} e.
Arguments on_Find {S} e.
Arguments on_Delete {S} e.
Arguments on_Dispatch {S} e.

(** [time.Now()] *)
Definition read_clock {S} (env : Env S) (m : Mem S) : Time * Mem S :=
  (wall_clock env (ticks m), mkMem (heap m) (Datatypes.S (ticks m)) (ext m)).

(** One call: its answer and the memory after it; [None] is a panic (a nil
    or dangling pointer dereferenced, or a panic of a collaborator). *)
Definition step {S X} (env : Env S) (c : Call X) (m : Mem S) : option (X * Mem S) :=
  match c in Call X return option (X * Mem S) with
  | repo_NextID => on_NextID env m
  | repo_Store order => on_Store env order m
  | repo_Find id => on_Find env id m
  | repo_Delete id => on_Delete env id m
  | dispatcher_Dispatch event => on_Dispatch env event m
  | time_Now => Some (read_clock env m)
  | new_Order o => Some (alloc o m)
  | load p => match deref m p with Some o => Some (o, m) | None => None end
  | assign p w => match write p w m with Some m' => Some (tt, m') | None => None end
  end.

(** How a run ends. *)
Inductive Outcome (A : Type) : Type :=
| Done (a : A)
| Panic.

Arguments Done {A} a.
Arguments Panic {A}.

(** The log of a run: every call with its answer, in order. *)
Inductive Entry : Set :=
| CalledNextID (r : UUID * error)
| CalledStore (order : ptr) (r : error)
| CalledFind (id : UUID) (r : ptr * error)
| CalledDelete (id : UUID) (r : error)
| CalledDispatch (event : Event) (r : error)
| CalledNow (t : Time)
| CalledNew (o : Order.t) (p : ptr)
| CalledLoad (p : ptr) (o : Order.t)
| CalledAssign (p : ptr) (w : FieldWrite).

Definition Called {X : Type} (c : Call X) : X -> Entry :=
  match c in Call X return X -> Entry with
  | repo_NextID => CalledNextID
  | repo_Store order => CalledStore order
  | repo_Find id => CalledFind id
  | repo_Delete id => CalledDelete id
  | dispatcher_Dispatch event => CalledDispatch event
  | time_Now => CalledNow
  | new_Order o => CalledNew o
  | load p => CalledLoad p
  | assign p w => fun _ => CalledAssign p w
  end.

Definition Trace := list Entry.

Fixpoint run {S A} (env : Env S) (p : Prog A) (m : Mem S) : Outcome A * Mem S * Trace :=
  match p with
  | Ret a => (Done a, m, [])
  | Vis c k =>
      match step env c m with
      | Some (x, m1) =>
          let '(out, m2, t) := run env (k x) m1 in
          (out, m2, Called c x :: t)
      | None => (Panic, m, [])
      end
  end.

(** *** Reading a log *)

(** The events handed to the dispatcher, each with the dispatcher's answer. *)
Definition dispatch_of (e : Entry) : option (Event * error) :=
  match e with
  | CalledDispatch event r => Some (event, r)
  | _ => None
  end.

Definition dispatches (t : Trace) : list (Event * error) := omap dispatch_of t.

(** The error a call to the repository answered with ([None] for a call to
    the repository that succeeded and for every other call). *)
Definition repo_error_of (e : Entry) : error :=
  match e with
  | CalledNextID r => snd r
  | CalledStore _ r => r
  | CalledFind _ r => snd r
  | CalledDelete _ r => r
  | _ => None
  end.

(** The calls that persist a change: a [Store] or a [Delete] that succeeded. *)
Definition is_persisted (e : Entry) : bool :=
  match e with
  | CalledStore _ r => is_nil r
  | CalledDelete _ r => is_nil r
  | _ => false
  end.

(** ** The repository and the dispatcher of the tests (orderservice_test.go) *)

Module mock.

(** [mockOrderRepository.store], [mockEventDispatcher.events], and the
    number of identifiers drawn so far from [uuid.NewV7]. *)
Record State : Type := mkState {
  store : gmap UUID ptr;
  events : list Event;
  drawn : nat
}.

Section Repository.
(** [uuid.NewV7()] belongs to a library: its n-th answer is given. *)
Variable NewV7 : nat -> UUID * error.
Variable clock : nat -> Time.

Definition NextID (m : Mem State) : option ((UUID * error) * Mem State) :=
  let s := ext m in
  Some (NewV7 (drawn s),
        mkMem (heap m) (ticks m) (mkState (store s) (events s) (S (drawn s)))).

(** [m.store[order.ID] = order; return nil] *)
Definition Store (order : ptr) (m : Mem State) : option (error * Mem State) :=
  match deref m order with
  | Some o =>
      let s := ext m in
      Some (None, mkMem (heap m) (ticks m)
                    (mkState (<[Order.ID o := order]> (store s)) (events s) (drawn s)))
  | None => None
  end.

(** [order, ok := m.store[id]; if !ok || order.DeletedAt != nil {...}] *)
Definition Find (id : UUID) (m : Mem State) : option ((ptr * error) * Mem State) :=
  match store (ext m) !! id with
  | None => Some ((None, Some ErrOrderNotFound), m)
  | Some order =>
      match deref m order with
      | Some o =>
          if decide (Order.DeletedAt o <> None)
          then Some ((None, Some ErrOrderNotFound), m)
          else Some ((order, None), m)
      | None => None
      end
  end.

Definition Delete (id : UUID) (m : Mem State) : option (error * Mem State) :=
  match store (ext m) !! id with
  | None => Some (Some ErrOrderNotFound, m)
  | Some order =>
      match deref m order with
      | Some o =>
          if decide (Order.DeletedAt o <> None)
          then Some (Some ErrOrderNotFound, m)
          else
            let now := clock (ticks m) in
            let m1 := mkMem (heap m) (S (ticks m)) (ext m) in
            match write order (SetDeletedAtField (Some now)) m1 with
            | Some m2 => Some (None, m2)
            | None => None
            end
      | None => None
      end
  end.

(** [m.events = append(m.events, event); return nil] *)
Definition Dispatch (event : Event) (m : Mem State) : option (error * Mem State) :=
  let s := ext m in
  Some (None, mkMem (heap m) (ticks m)
                (mkState (store s) (events s ++ [event]) (drawn s))).

Definition env : Env State :=
  mkEnv clock NextID Store Find Delete Dispatch.

(** The repository is shared: another caller's [Delete(id)] may run between
    two calls of this caller.  Here it runs right after the lookup of [id]
    has answered. *)
Definition Find_then_other_Delete (id : UUID) (m : Mem State)
  : option ((ptr * error) * Mem State) :=
  match Find id m with
  | Some (r, m1) =>
      match Delete id m1 with
      | Some (_, m2) => Some (r, m2)
      | None => None
      end
  | None => None
  end.

Definition racing_env : Env State :=
  mkEnv clock NextID Store Find_then_other_Delete Delete Dispatch.
End Repository.

(** [evs := make([]service.Event, len(m.events)); copy(evs, m.events)]:
    the events recorded so far, as a slice of its own. *)
Definition GetEvents (m : Mem State) : list Event := events (ext m).

(** [m.events = nil] *)
Definition Clear (m : Mem State) : Mem State :=
  mkMem (heap m) (ticks m) (mkState (store (ext m)) [] (drawn (ext m))).

(** [newMockOrderRepository()] and [&mockEventDispatcher{}] on an empty heap. *)
Definition setup : Mem State := mkMem ∅ 0 (mkState ∅ [] 0).

End mock.

(** ** Notions used to state the properties *)

(** The memory after the service has rewritten the order at [l] as [o] and
    has read the clock once. *)
Definition touch {S} (l : loc) (o : Order.t) (m : Mem S) : Mem S :=
  mkMem (<[l := o]> (heap m)) (Datatypes.S (ticks m)) (ext m).

(** A repository that never hands out [uuid.Nil] as a fresh identifier. *)
Definition allocates_non_nil {S} (env : Env S) : Prop :=
  forall (m m' : Mem S) (id : UUID),
    on_NextID env m = Some ((id, None), m') -> id <> uuid_Nil.

(** Collaborators that never answer with the error [err]. *)
Definition never_answers {S} (env : Env S) (err : Err) : Prop :=
  (forall p (m m' : Mem S) r, on_Store env p m = Some (r, m') -> r <> Some err) /\
  (forall ev (m m' : Mem S) r, on_Dispatch env ev m = Some (r, m') -> r <> Some err).

(** The error an operation returned, when it returned. *)
Definition outcome_error {A} (err_of : A -> error) (out : Outcome A) : option error :=
  match out with
  | Done a => Some (err_of a)
  | Panic => None
  end.

(** The discipline of an operation [p] whose result carries the error
    [err_of]: in every run,
    - a call to the repository that fails ends the operation with that very
      error, and nothing is dispatched in the run;
    - a dispatch is the last call of the run; the call right before it is a
      [Store] or a [Delete] that succeeded, no call to the repository before
      it failed, the operation returns the dispatcher's answer, and the final
      memory is the one the dispatcher left. *)
Definition dispatch_after_persistence {S A} (env : Env S) (err_of : A -> error)
           (p : Prog A) : Prop :=
  forall (m m' : Mem S) (out : Outcome A) (t : Trace),
    run env p m = (out, m', t) ->
    (forall e err,
        e ∈ t -> repo_error_of e = Some err ->
        outcome_error err_of out = Some (Some err) /\ dispatches t = []) /\
    (forall pre ev r post,
        t = pre ++ CalledDispatch ev r :: post ->
        post = [] /\
        (exists pre' e, pre = pre' ++ [e] /\ is_persisted e = true) /\
        Forall (fun e => repo_error_of e = None) pre /\
        outcome_error err_of out = Some r /\
        exists m0, step env (dispatcher_Dispatch ev) m0 = Some (r, m')).

(** In every successful run of [p], exactly one event is dispatched, and the
    dispatcher accepts it. *)
Definition dispatches_once {S A} (env : Env S) (err_of : A -> error) (p : Prog A) : Prop :=
  forall (m m' : Mem S) (a : A) (t : Trace),
    run env p m = (Done a, m', t) ->
    err_of a = None ->
    exists ev, dispatches t = [(ev, None)].

(** On the repository of the tests: after every successful run of [p], the
    order stored under [target] has its [UpdatedAt] equal to a time the clock
    gave during the run. *)
Definition refreshes_UpdatedAt {A} (env : Env mock.State) (target : A -> UUID)
           (err_of : A -> error) (p : Prog A) : Prop :=
  forall (m m' : Mem mock.State) (a : A) (t : Trace) (l : loc) (o' : Order.t),
    run env p m = (Done a, m', t) ->
    err_of a = None ->
    mock.store (ext m') !! target a = Some (Some l) ->
    heap m' !! l = Some o' ->
    exists n : nat,
      (ticks m <= n < ticks m')%nat /\ Order.UpdatedAt o' = wall_clock env n.

(** On the repository of the tests: every successful run of [p] leaves the
    order stored under [orderID] as it was, but for [DeletedAt], which is set
    to the time the clock gave. *)
Definition sets_DeletedAt_only (env : Env mock.State) (orderID : UUID)
           (p : Prog error) : Prop :=
  forall (m m' : Mem mock.State) (t : Trace) (l : loc) (o : Order.t),
    run env p m = (Done None, m', t) ->
    mock.store (ext m) !! orderID = Some (Some l) ->
    heap m !! l = Some o ->
    mock.store (ext m') !! orderID = Some (Some l) /\
    heap m' !! l
      = Some (Order.mk (Order.ID o) (Order.CustomerID o) (Order.Status o)
                       (Order.Items o) (Order.CreatedAt o) (Order.UpdatedAt o)
                       (Some (wall_clock env (ticks m)))).

(** The order at [l] is stored under [id] and not deleted. *)
Definition live (m : Mem mock.State) (id : UUID) (l : loc) (o : Order.t) : Prop :=
  mock.store (ext m) !! id = Some (Some l) /\
  heap m !! l = Some o /\
  Order.DeletedAt o = None.

(** No order is stored under [id], or the one that is has been deleted. *)
Definition gone (m : Mem mock.State) (id : UUID) : Prop :=
  mock.store (ext m) !! id = None \/
  exists l o, mock.store (ext m) !! id = Some (Some l) /\
              heap m !! l = Some o /\
              Order.DeletedAt o <> None.

(** The memory after the repository has soft-deleted the order [o] at [l]. *)
Definition tombstoned (clock : nat -> Time) (m : Mem mock.State) (l : loc) (o : Order.t)
  : Mem mock.State :=
  mkMem (<[l := apply_write (SetDeletedAtField (Some (clock (ticks m)))) o]> (heap m))
        (Datatypes.S (ticks m)) (ext m).

(** ** The scenario of the tests *)

Module scenario.
(** The identifiers [uuid.NewV7] hands out, and the clock. *)
Definition NewV7 (n : nat) : UUID * error := ((100 + N.of_nat n)%N, None).
Definition clock (n : nat) : Time := 1000 + Z.of_nat n.

Definition env : Env mock.State := mock.env NewV7 clock.

Definition customerID : UUID := 7%N.

(** The memory after [orderSvc.CreateOrder(customerID)] on a fresh setup:
    the order has identifier 100 and lives at location 1. *)
Definition created : Mem mock.State :=
  snd (fst (run env (CreateOrder customerID) mock.setup)).

(** The same, with the events cleared ([dispatcher.Clear()]). *)
Definition cleared (m : Mem mock.State) : Mem mock.State :=
  mkMem (heap m) (ticks m)
        (mock.mkState (mock.store (ext m)) [] (mock.drawn (ext m))).

(** After two items, 101 and 102, were added. *)
Definition with_two_items : Mem mock.State :=
  snd (fst (run env (AddItem 100%N 56%N 20)
                (snd (fst (run env (AddItem 100%N 55%N 10) created))))).

(** After the status was set to [st]. *)
Definition with_status (st : OrderStatus) : Mem mock.State :=
  snd (fst (run env (SetStatus 100%N st) created)).
End scenario.

Module duplicates.
(** An open order in which two items carry the identifier 101. *)
Definition order : Order.t :=
  Order.mk 100%N 7%N Open
           [Item.mk 102%N 56%N 20; Item.mk 101%N 55%N 10;
            Item.mk 103%N 57%N 30; Item.mk 101%N 58%N 40]
           1000 1004 None.

Definition mem : Mem mock.State :=
  mkMem {[1%positive := order]} 5
        (mock.mkState {[100%N := Some 1%positive]} [] 4).
End duplicates.

(** Collaborators that fail, over the repository and the clock of the
    scenario. *)
Module faulty.
Definition store_fails : Env mock.State :=
  mkEnv scenario.clock (mock.NextID scenario.NewV7)
        (fun _ m => Some (Some (ErrOther "store"), m))
        mock.Find (mock.Delete scenario.clock) mock.Dispatch.

Definition dispatch_fails : Env mock.State :=
  mkEnv scenario.clock (mock.NextID scenario.NewV7) mock.Store
        mock.Find (mock.Delete scenario.clock)
        (fun _ m => Some (Some (ErrOther "dispatch"), m)).
End faulty.

(** ** Notions used to state further properties *)

(** In every run of [p], whatever is handed to the dispatcher satisfies [P],
    and at most one event is handed to it. *)
Definition dispatches_only {S A} (env : Env S) (P : Event -> Prop) (p : Prog A) : Prop :=
  forall (m m' : Mem S) (out : Outcome A) (t : Trace),
    run env p m = (out, m', t) ->
    (length (dispatches t) <= 1)%nat /\
    forall ev r, (ev, r) ∈ dispatches t -> P ev.

(** A repository whose lookup answers a nil order together with a nil error. *)
Module careless.
Definition env : Env mock.State :=
  mkEnv scenario.clock (mock.NextID scenario.NewV7) mock.Store
        (fun _ m => Some ((None, None), m))
        (mock.Delete scenario.clock) mock.Dispatch.
End careless.

(** Every identifier the store knows leads to an order of the heap that
    carries this very identifier. *)
Definition stored_under_own_id (h : gmap loc Order.t) (st : gmap UUID ptr) : Prop :=
  forall id p,
    st !! id = Some p ->
    exists l o, p = Some l /\ h !! l = Some o /\ Order.ID o = id.

Definition mock_wf (m : Mem mock.State) : Prop :=
  stored_under_own_id (heap m) (mock.store (ext m)).

(** From [(h, st)] to [(h', st')], nothing has changed for the orders stored
    under an identifier other than [orderID]. *)
Definition untouched_except (orderID : UUID)
           (h : gmap loc Order.t) (st : gmap UUID ptr)
           (h' : gmap loc Order.t) (st' : gmap UUID ptr) : Prop :=
  forall id,
    id <> orderID ->
    st' !! id = st !! id /\
    forall l, st !! id = Some (Some l) -> h' !! l = h !! l.

Definition others_untouched (orderID : UUID) (m m' : Mem mock.State) : Prop :=
  untouched_except orderID (heap m) (mock.store (ext m))
                   (heap m') (mock.store (ext m')).

Module two_orders.
(** The scenario with a second order, 101 at location 2, created for the
    customer 8 right after the first. *)
Definition mem : Mem mock.State :=
  snd (fst (run scenario.env (CreateOrder 8%N) scenario.created)).

(** The same after the first order was soft-deleted. *)
Definition first_deleted : Mem mock.State :=
  snd (fst (run scenario.env (DeleteOrder 100%N) mem)).
End two_orders.

Module tombstone.
(** The scenario after its order, 100, was soft-deleted. *)
Definition mem : Mem mock.State :=
  snd (fst (run scenario.env (DeleteOrder 100%N) scenario.created)).
End tombstone.

(** The memory of the repository of the tests after the service has stored
    the order at [l] as [o'] and the event [ev] has been recorded: the record
    is rewritten in place, the clock has been read once, the store holds [l]
    under [key]. *)
Definition committed (m : Mem mock.State) (l : loc) (key : UUID) (o' : Order.t)
           (ev : Event) : Mem mock.State :=
  mkMem (<[l := o']> (heap m)) (Datatypes.S (ticks m))
        (mock.mkState (<[key := Some l]> (mock.store (ext m)))
                      (mock.events (ext m) ++ [ev]) (mock.drawn (ext m))).

(** The same after an identifier was drawn as well. *)
Definition committed_with_id (m : Mem mock.State) (l : loc) (key : UUID)
           (o' : Order.t) (ev : Event) : Mem mock.State :=
  mkMem (<[l := o']> (heap m)) (Datatypes.S (ticks m))
        (mock.mkState (<[key := Some l]> (mock.store (ext m)))
                      (mock.events (ext m) ++ [ev])
                      (Datatypes.S (mock.drawn (ext m)))).

(** What the dispatcher of the tests has recorded after a run of [p] is what
    it had recorded before, followed by the events the run dispatched, none
    of which it refused; so after a [Clear] it is the events of the run. *)
Definition records_dispatched {A} (env : Env mock.State) (p : Prog A) : Prop :=
  forall (m m' : Mem mock.State) (out : Outcome A) (t : Trace),
    (run env p m = (out, m', t) ->
     mock.GetEvents m' = mock.GetEvents m ++ (fst <$> dispatches t) /\
     Forall (fun d => snd d = None) (dispatches t)) /\
    (run env p (mock.Clear m) = (out, m', t) ->
     mock.GetEvents m' = fst <$> dispatches t).

(** ** Tactics *)

Ltac exec :=
  repeat first
    [ progress cbn [run step deref write read_clock alloc is_nil negb fst snd
                    heap ticks ext apply_write
                    Order.ID Order.CustomerID Order.Status Order.Items
                    Order.CreatedAt Order.UpdatedAt Order.DeletedAt]
    | match goal with
      | H : ?x = Some _ |- context [match ?x with _ => _ end] => rewrite H
      end
    | rewrite lookup_insert_eq
    | rewrite insert_insert_eq
    | rewrite decide_True by (first [done | congruence])
    | rewrite decide_False by (first [done | congruence | naive_solver]) ].

(** Case analysis on a run against an arbitrary environment: every call is
    split into the answers the environment may give. *)
Ltac split_answer :=
  match goal with
  | H : context [is_nil ?e] |- _ => is_var e; destruct e
  | |- context [is_nil ?e] => is_var e; destruct e
  | _ => case_match
  end.

Ltac inv_run := repeat (split_answer; simplify_eq/=).

Ltac members H :=
  repeat (apply elem_of_cons in H as [->|H]); try (by apply elem_of_nil in H).

Ltac find_dispatch pre :=
  repeat (destruct pre as [|? pre]; simplify_eq/=).

Ltac last_entry :=
  first [ by eexists [], _ | by eexists [_], _ | by eexists [_; _], _
        | by eexists [_; _; _], _ | by eexists [_; _; _; _], _
        | by eexists [_; _; _; _; _], _ | by eexists [_; _; _; _; _; _], _
        | by eexists [_; _; _; _; _; _; _], _ ].

Ltac close_discipline :=
  repeat match goal with
         | |- _ /\ _ => split
         | |- exists (pre' : list Entry) (e : Entry), _ => last_entry
         | |- exists _ : Mem _, _ => by eexists
         | |- Forall _ _ => by repeat constructor
         | |- _ => done
         end.

Ltac discipline :=
  intros m m' out t Hrun; cbn [run step] in Hrun; inv_run;
  (split;
   [ intros ? ? Hin Herr; members Hin; by simplify_eq/=
   | intros pre ? ? ? Ht; find_dispatch pre; close_discipline ]).

Ltac mock_run H :=
  cbn [run step mock.env on_NextID on_Store on_Find on_Delete on_Dispatch] in H;
  unfold mock.NextID, mock.Store, mock.Find, mock.Delete, mock.Dispatch in H;
  cbn [ext heap ticks deref] in H.

Ltac map_lookups :=
  repeat match goal with
         | H : context [<[_ := _]> _ !! _] |- _ =>
             rewrite lookup_insert in H; try case_decide; simplify_eq/=
         end.

Ltac refresh :=
  intros m m' a t l o' Hrun Hok Hst Ho'; mock_run Hrun; inv_run;
  unfold write, mock.Store, deref in *; inv_run; map_lookups;
  eexists; (split; [split; [reflexivity | lia] | done]).

Ltac one_dispatch :=
  intros m m' a t Hrun Hok; cbn [run step] in Hrun; inv_run; by eexists.

Ltac only_events Hrun :=
  cbn [run step] in Hrun; inv_run;
  (split; [cbn; lia |]);
  intros ? ? Hin; cbn in Hin;
  repeat (apply elem_of_cons in Hin as [?|Hin]; [simplify_eq; by eauto|]);
  by apply elem_of_nil in Hin.

(** A run on the repository of the tests, from a memory where the order
    looked up, if any, is on the heap. *)
Ltac mock_cases Hrun :=
  inv_run;
  unfold write, mock.Store, mock.Delete, mock.Find, mock.Dispatch, mock.NextID, deref in *;
  inv_run; map_lookups;
  rewrite ?insert_insert_eq.

Ltac recorded Hrun :=
  mock_run Hrun; mock_cases Hrun;
  unfold mock.GetEvents; cbn; rewrite ?app_nil_r;
  first [done | split; [done | by repeat constructor]].

(** * Properties *)

(** ** The scan and the removal of [DeleteItem] *)

(** The scan answers -1 exactly when no item carries the identifier. *)
Lemma find_item_index_absent (items : list Item.t) (itemID : UUID) (i : Z) :
  0 <= i ->
  find_item_index items itemID i = -1 <->
  Forall (fun item => Item.ID item <> itemID) items.
Proof.
  revert i. induction items as [|item rest IH]; intros i Hi; simpl.
  - split; [constructor | done].
  - case_decide as Hid.
    + split; [lia|]. intros Hall. by inversion Hall.
    + rewrite IH by lia. split.
      * by constructor.
      * intros Hall. by inversion Hall.
Qed.

(** When the scan answers an index, it is the position of the leftmost item
    that carries the identifier. *)
Lemma find_item_index_first (items : list Item.t) (itemID : UUID) (i : Z) :
  0 <= i ->
  find_item_index items itemID i <> -1 ->
  exists pre item post,
    items = pre ++ item :: post /\
    Item.ID item = itemID /\
    Forall (fun it => Item.ID it <> itemID) pre /\
    find_item_index items itemID i = i + Z.of_nat (length pre).
Proof.
  revert i. induction items as [|item rest IH]; intros i Hi Hfound; simpl in *.
  - done.
  - case_decide as Hid.
    + exists [], item, rest. simpl. repeat split; [done | constructor | lia].
    + destruct (IH (i + 1)) as (pre & it & post & -> & Hit & Hpre & Hidx);
        [lia | done |].
      exists (item :: pre), it, post. simpl. repeat split; [done | by constructor | lia].
Qed.

(** Conversely, the scan stops at the leftmost item with the identifier. *)
Lemma find_item_index_leftmost (pre post : list Item.t) (item : Item.t)
      (itemID : UUID) (i : Z) :
  Item.ID item = itemID ->
  Forall (fun it => Item.ID it <> itemID) pre ->
  find_item_index (pre ++ item :: post) itemID i = i + Z.of_nat (length pre).
Proof.
  intros Hid Hpre. revert i.
  induction Hpre as [|it pre Hit _ IH]; intros i; simpl.
  - rewrite decide_True by done. lia.
  - rewrite decide_False by done. rewrite IH. lia.
Qed.

Lemma filter_no_match (pre : list Item.t) (itemID : UUID) :
  Forall (fun it => Item.ID it <> itemID) pre ->
  filter (fun it => Item.ID it = itemID) pre = [].
Proof.
  induction 1 as [|it pre Hit _ IH]; [done|].
  by rewrite filter_cons, decide_False.
Qed.

Lemma remove_at_middle (pre post : list Item.t) (item : Item.t) :
  remove_at (pre ++ item :: post) (Z.of_nat (length pre)) = pre ++ post.
Proof.
  unfold remove_at.
  replace (Z.to_nat (Z.of_nat (length pre) + 1)) with (length pre + 1)%nat by lia.
  by rewrite Nat2Z.id, take_app_length, drop_app_add.
Qed.

(** ** Runs of the five operations *)

Section Runs.
Context {S : Type} (env : Env S).

(** [CreateOrder] when the identifier is allocated and the order stored:
    the result carries the identifier and the dispatcher's answer. *)
Lemma CreateOrder_run (m m1 m2 m3 : Mem S) (customerID orderID : UUID) (r : error) :
  let now := wall_clock env (ticks m1) in
  let order := Order.mk orderID customerID Open [] now now None in
  let l := fresh (dom (heap m1)) in
  step env repo_NextID m = Some ((orderID, None), m1) ->
  step env (repo_Store (Some l)) (touch l order m1) = Some (None, m2) ->
  step env (dispatcher_Dispatch (OrderCreated orderID customerID)) m2 = Some (r, m3) ->
  run env (CreateOrder customerID) m =
    (Done (orderID, r), m3,
     [CalledNextID (orderID, None);
      CalledNow now;
      CalledNew order (Some l);
      CalledStore (Some l) None;
      CalledDispatch (OrderCreated orderID customerID) r]).
Proof.
  intros now order l HNextID HStore HDispatch. subst now order l.
  unfold CreateOrder, touch in *. cbn [step] in *. by exec.
Qed.

(** [DeleteOrder] when the order is found and the repository deletes it. *)
Lemma DeleteOrder_run (m m1 m2 m3 : Mem S) (orderID : UUID) (order : ptr) (r : error) :
  step env (repo_Find orderID) m = Some ((order, None), m1) ->
  step env (repo_Delete orderID) m1 = Some (None, m2) ->
  step env (dispatcher_Dispatch (OrderDeleted orderID)) m2 = Some (r, m3) ->
  run env (DeleteOrder orderID) m =
    (Done r, m3,
     [CalledFind orderID (order, None);
      CalledDelete orderID None;
      CalledDispatch (OrderDeleted orderID) r]).
Proof.
  intros HFind HDelete HDispatch.
  unfold DeleteOrder. cbn [step] in *. by exec.
Qed.

(** [SetStatus] on an order that is not cancelled, when the store succeeds. *)
Lemma SetStatus_run (m m1 m2 m3 : Mem S) (orderID : UUID) (status : OrderStatus)
      (l : loc) (o : Order.t) (r : error) :
  let now := wall_clock env (ticks m1) in
  let o' := Order.mk (Order.ID o) (Order.CustomerID o) status (Order.Items o)
                     (Order.CreatedAt o) now (Order.DeletedAt o) in
  step env (repo_Find orderID) m = Some ((Some l, None), m1) ->
  heap m1 !! l = Some o ->
  Order.Status o <> Cancelled ->
  step env (repo_Store (Some l)) (touch l o' m1) = Some (None, m2) ->
  step env (dispatcher_Dispatch (OrderStatusChanged orderID status)) m2 = Some (r, m3) ->
  run env (SetStatus orderID status) m =
    (Done r, m3,
     [CalledFind orderID (Some l, None);
      CalledLoad (Some l) o;
      CalledAssign (Some l) (SetStatusField status);
      CalledNow now;
      CalledAssign (Some l) (SetUpdatedAtField now);
      CalledStore (Some l) None;
      CalledDispatch (OrderStatusChanged orderID status) r]).
Proof.
  intros now o' HFind Ho Hstatus HStore HDispatch. subst now o'.
  unfold SetStatus, touch in *. cbn [step] in *. by exec.
Qed.

(** [SetStatus] on a cancelled order: nothing is written, nothing is
    stored, nothing is dispatched. *)
Lemma SetStatus_cancelled (m m1 : Mem S) (orderID : UUID) (status : OrderStatus)
      (l : loc) (o : Order.t) :
  step env (repo_Find orderID) m = Some ((Some l, None), m1) ->
  heap m1 !! l = Some o ->
  Order.Status o = Cancelled ->
  run env (SetStatus orderID status) m =
    (Done (Some ErrInvalidOrderStatus), m1,
     [CalledFind orderID (Some l, None); CalledLoad (Some l) o]).
Proof.
  intros HFind Ho Hstatus.
  unfold SetStatus. cbn [step] in *. by exec.
Qed.

(** [AddItem] on an open order, when the identifier is allocated and the
    store succeeds.  [o2] is the order as it is read back after the
    allocation, right before the append. *)
Lemma AddItem_run (m m1 m2 m3 m4 : Mem S) (orderID productID itemID : UUID)
      (price : float64) (l : loc) (o o2 : Order.t) (r : error) :
  let now := wall_clock env (ticks m2) in
  let items := Order.Items o2 ++ [Item.mk itemID productID price] in
  let o' := Order.mk (Order.ID o2) (Order.CustomerID o2) (Order.Status o2) items
                     (Order.CreatedAt o2) now (Order.DeletedAt o2) in
  step env (repo_Find orderID) m = Some ((Some l, None), m1) ->
  heap m1 !! l = Some o ->
  Order.Status o = Open ->
  step env repo_NextID m1 = Some ((itemID, None), m2) ->
  heap m2 !! l = Some o2 ->
  step env (repo_Store (Some l)) (touch l o' m2) = Some (None, m3) ->
  step env (dispatcher_Dispatch (OrderItemsChanged orderID [itemID] [])) m3 = Some (r, m4) ->
  run env (AddItem orderID productID price) m =
    (Done (itemID, r), m4,
     [CalledFind orderID (Some l, None);
      CalledLoad (Some l) o;
      CalledNextID (itemID, None);
      CalledLoad (Some l) o2;
      CalledAssign (Some l) (SetItemsField items);
      CalledNow now;
      CalledAssign (Some l) (SetUpdatedAtField now);
      CalledStore (Some l) None;
      CalledDispatch (OrderItemsChanged orderID [itemID] []) r]).
Proof.
  intros now items o' HFind Ho Hstatus HNextID Ho2 HStore HDispatch. subst now items o'.
  unfold AddItem, touch in *. cbn [step] in *. by exec.
Qed.

(** [AddItem] on an order that is not open. *)
Lemma AddItem_not_open (m m1 : Mem S) (orderID productID : UUID) (price : float64)
      (l : loc) (o : Order.t) :
  step env (repo_Find orderID) m = Some ((Some l, None), m1) ->
  heap m1 !! l = Some o ->
  Order.Status o <> Open ->
  run env (AddItem orderID productID price) m =
    (Done (uuid_Nil, Some ErrInvalidOrderStatus), m1,
     [CalledFind orderID (Some l, None); CalledLoad (Some l) o]).
Proof.
  intros HFind Ho Hstatus.
  unfold AddItem. cbn [step] in *. by exec.
Qed.

(** [DeleteItem] on an open order none of whose items has the identifier. *)
Lemma DeleteItem_absent (m m1 : Mem S) (orderID itemID : UUID) (l : loc) (o : Order.t) :
  step env (repo_Find orderID) m = Some ((Some l, None), m1) ->
  heap m1 !! l = Some o ->
  Order.Status o = Open ->
  Forall (fun item => Item.ID item <> itemID) (Order.Items o) ->
  run env (DeleteItem orderID itemID) m =
    (Done (Some ErrItemNotFound), m1,
     [CalledFind orderID (Some l, None); CalledLoad (Some l) o]).
Proof.
  intros HFind Ho Hstatus Habsent.
  apply (find_item_index_absent _ _ 0) in Habsent; [|done].
  unfold DeleteItem. cbn [step] in *. by exec.
Qed.

(** [DeleteItem] on an open order whose leftmost item with the identifier
    is [item], standing between [pre] and [post]. *)
Lemma DeleteItem_run (m m1 m2 m3 : Mem S) (orderID itemID : UUID) (l : loc)
      (o : Order.t) (pre post : list Item.t) (item : Item.t) (r : error) :
  let now := wall_clock env (ticks m1) in
  let o' := Order.mk (Order.ID o) (Order.CustomerID o) (Order.Status o) (pre ++ post)
                     (Order.CreatedAt o) now (Order.DeletedAt o) in
  step env (repo_Find orderID) m = Some ((Some l, None), m1) ->
  heap m1 !! l = Some o ->
  Order.Status o = Open ->
  Order.Items o = pre ++ item :: post ->
  Item.ID item = itemID ->
  Forall (fun it => Item.ID it <> itemID) pre ->
  step env (repo_Store (Some l)) (touch l o' m1) = Some (None, m2) ->
  step env (dispatcher_Dispatch (OrderItemsChanged orderID [] [itemID])) m2 = Some (r, m3) ->
  run env (DeleteItem orderID itemID) m =
    (Done r, m3,
     [CalledFind orderID (Some l, None);
      CalledLoad (Some l) o;
      CalledAssign (Some l) (SetItemsField (pre ++ post));
      CalledNow now;
      CalledAssign (Some l) (SetUpdatedAtField now);
      CalledStore (Some l) None;
      CalledDispatch (OrderItemsChanged orderID [] [itemID]) r]).
Proof.
  intros now o' HFind Ho Hstatus Hitems Hid Hpre HStore HDispatch. subst now o'.
  assert (find_item_index (Order.Items o) itemID 0 = Z.of_nat (length pre)) as Hidx.
  { rewrite Hitems. by rewrite find_item_index_leftmost. }
  unfold DeleteItem, touch in *. cbn [step] in *. cbn zeta.
  exec. rewrite Hidx. rewrite decide_False by lia.
  rewrite Hitems, remove_at_middle. by exec.
Qed.

End Runs.

(** ** Persistence before dispatch *)

Section Discipline.
Context {S : Type} (env : Env S).

Lemma CreateOrder_discipline (customerID : UUID) :
  dispatch_after_persistence env snd (CreateOrder customerID).
Proof. unfold CreateOrder. discipline. Qed.

Lemma DeleteOrder_discipline (orderID : UUID) :
  dispatch_after_persistence env id (DeleteOrder orderID).
Proof. unfold DeleteOrder. discipline. Qed.

Lemma SetStatus_discipline (orderID : UUID) (status : OrderStatus) :
  dispatch_after_persistence env id (SetStatus orderID status).
Proof. unfold SetStatus. discipline. Qed.

Lemma AddItem_discipline (orderID productID : UUID) (price : float64) :
  dispatch_after_persistence env snd (AddItem orderID productID price).
Proof. unfold AddItem. discipline. Qed.

Lemma DeleteItem_discipline (orderID itemID : UUID) :
  dispatch_after_persistence env id (DeleteItem orderID itemID).
Proof. unfold DeleteItem. discipline. Qed.

End Discipline.

(** ** Soft deletion, on the repository of the tests *)

Section SoftDelete.
Variable NewV7 : nat -> UUID * error.
Variable clock : nat -> Time.

Lemma mock_Find_gone (m : Mem mock.State) (id : UUID) :
  gone m id -> mock.Find id m = Some ((None, Some ErrOrderNotFound), m).
Proof.
  unfold mock.Find. intros [-> | (l & o & -> & Ho & Hdel)]; [done|].
  cbn [deref]. rewrite Ho. by rewrite decide_True.
Qed.

Lemma mock_Delete_gone (m : Mem mock.State) (id : UUID) :
  gone m id -> mock.Delete clock id m = Some (Some ErrOrderNotFound, m).
Proof.
  unfold mock.Delete. intros [-> | (l & o & -> & Ho & Hdel)]; [done|].
  cbn [deref]. rewrite Ho. by rewrite decide_True.
Qed.

Lemma mock_Find_live (m : Mem mock.State) (id : UUID) (l : loc) (o : Order.t) :
  live m id l o -> mock.Find id m = Some ((Some l, None), m).
Proof.
  unfold mock.Find. intros (-> & Ho & Hdel). cbn [deref]. rewrite Ho.
  rewrite decide_False; [done|]. by intros [].
Qed.

Lemma mock_Delete_live (m : Mem mock.State) (id : UUID) (l : loc) (o : Order.t) :
  live m id l o -> mock.Delete clock id m = Some (None, tombstoned clock m l o).
Proof.
  unfold mock.Delete. intros (-> & Ho & Hdel). cbn [deref]. rewrite Ho.
  rewrite decide_False by (by intros []).
  unfold write. cbn [heap]. by rewrite Ho.
Qed.

Lemma tombstoned_gone (m : Mem mock.State) (id : UUID) (l : loc) (o : Order.t) :
  live m id l o -> gone (tombstoned clock m l o) id.
Proof.
  intros (Hid & Ho & Hdel). right. eexists l, _. split; [done|].
  split; [apply lookup_insert_eq | done].
Qed.

End SoftDelete.

(** ** What a successful operation leaves behind *)

Section Effects.
Context {S : Type} (env : Env S).

Lemma CreateOrder_once (customerID : UUID) :
  dispatches_once env snd (CreateOrder customerID).
Proof. unfold CreateOrder. one_dispatch. Qed.

Lemma DeleteOrder_once (orderID : UUID) :
  dispatches_once env id (DeleteOrder orderID).
Proof. unfold DeleteOrder. one_dispatch. Qed.

Lemma SetStatus_once (orderID : UUID) (status : OrderStatus) :
  dispatches_once env id (SetStatus orderID status).
Proof. unfold SetStatus. one_dispatch. Qed.

Lemma AddItem_once (orderID productID : UUID) (price : float64) :
  dispatches_once env snd (AddItem orderID productID price).
Proof. unfold AddItem. one_dispatch. Qed.

Lemma DeleteItem_once (orderID itemID : UUID) :
  dispatches_once env id (DeleteItem orderID itemID).
Proof. unfold DeleteItem. one_dispatch. Qed.

End Effects.

Section Refresh.
Variable NewV7 : nat -> UUID * error.
Variable clock : nat -> Time.

Lemma CreateOrder_refreshes (customerID : UUID) :
  refreshes_UpdatedAt (mock.env NewV7 clock) fst snd (CreateOrder customerID).
Proof. unfold CreateOrder. refresh. Qed.

Lemma SetStatus_refreshes (orderID : UUID) (status : OrderStatus) :
  refreshes_UpdatedAt (mock.env NewV7 clock) (fun _ => orderID) id
                      (SetStatus orderID status).
Proof. unfold SetStatus. refresh. Qed.

Lemma AddItem_refreshes (orderID productID : UUID) (price : float64) :
  refreshes_UpdatedAt (mock.env NewV7 clock) (fun _ => orderID) snd
                      (AddItem orderID productID price).
Proof. unfold AddItem. refresh. Qed.

Lemma DeleteItem_refreshes (orderID itemID : UUID) :
  refreshes_UpdatedAt (mock.env NewV7 clock) (fun _ => orderID) id
                      (DeleteItem orderID itemID).
Proof. unfold DeleteItem. refresh. Qed.

Lemma DeleteOrder_sets_DeletedAt_only (orderID : UUID) :
  sets_DeletedAt_only (mock.env NewV7 clock) orderID (DeleteOrder orderID).
Proof.
  intros m m' t l o Hrun Hst Ho. unfold DeleteOrder in Hrun.
  cbn [run step mock.env on_Find on_Delete on_Dispatch] in Hrun.
  destruct (decide (Order.DeletedAt o = None)) as [Hdel|Hdel].
  - assert (live m orderID l o) as Hlive by done.
    rewrite (mock_Find_live m orderID l o Hlive) in Hrun.
    cbn [is_nil negb run step mock.env on_Delete on_Dispatch] in Hrun.
    rewrite (mock_Delete_live clock m orderID l o Hlive) in Hrun.
    cbn in Hrun. simplify_eq. split; [done | apply lookup_insert_eq].
  - assert (gone m orderID) as Hgone by (right; by exists l, o).
    rewrite (mock_Find_gone m orderID Hgone) in Hrun. by cbn in Hrun.
Qed.

End Refresh.

Lemma mock_never_answers (NewV7 : nat -> UUID * error) (clock : nat -> Time) (err : Err) :
  never_answers (mock.env NewV7 clock) err.
Proof.
  split.
  - intros p m m' r H. cbn in H. unfold mock.Store in H.
    destruct (deref m p); by simplify_eq.
  - intros ev m m' r H. cbn in H. unfold mock.Dispatch in H. by simplify_eq.
Qed.

(** * The claims *)

(** C1. [AddItem] is gated by the status [Open].  On an open order, when the
    repository allocates a non-nil identifier and the store and the dispatch
    succeed, [AddItem] returns that identifier and no error; the order handed
    to [Store] is the order with one item [{itemID, productID, price}]
    appended after the items it had and with [UpdatedAt] set to the time
    read; exactly one event is dispatched,
    [OrderItemsChanged{orderID, [itemID], []}].  On an order that is not
    open, [AddItem] returns [ErrInvalidOrderStatus], the memory is the one the
    lookup left, and nothing is dispatched. *)
Theorem AddItem_requires_Open {S} (env : Env S) (m m1 : Mem S)
        (orderID productID : UUID) (price : float64) (l : loc) (o : Order.t) :
  step env (repo_Find orderID) m = Some ((Some l, None), m1) ->
  heap m1 !! l = Some o ->
  (Order.Status o = Open ->
   forall (itemID : UUID) (o2 : Order.t) (m2 m3 m4 : Mem S),
     let now := wall_clock env (ticks m2) in
     let item := Item.mk itemID productID price in
     let o' := Order.mk (Order.ID o2) (Order.CustomerID o2) (Order.Status o2)
                        (Order.Items o2 ++ [item])
                        (Order.CreatedAt o2) now (Order.DeletedAt o2) in
     step env repo_NextID m1 = Some ((itemID, None), m2) ->
     itemID <> uuid_Nil ->
     heap m2 !! l = Some o2 ->
     step env (repo_Store (Some l)) (touch l o' m2) = Some (None, m3) ->
     step env (dispatcher_Dispatch (OrderItemsChanged orderID [itemID] [])) m3
       = Some (None, m4) ->
     exists (id : UUID) (t : Trace),
       run env (AddItem orderID productID price) m = (Done (id, None), m4, t) /\
       id = itemID /\
       id <> uuid_Nil /\
       t = [CalledFind orderID (Some l, None);
            CalledLoad (Some l) o;
            CalledNextID (itemID, None);
            CalledLoad (Some l) o2;
            CalledAssign (Some l) (SetItemsField (Order.Items o2 ++ [item]));
            CalledNow now;
            CalledAssign (Some l) (SetUpdatedAtField now);
            CalledStore (Some l) None;
            CalledDispatch (OrderItemsChanged orderID [itemID] []) None] /\
       heap (touch l o' m2) !! l = Some o' /\
       dispatches t = [(OrderItemsChanged orderID [itemID] [], None)]) /\
  (Order.Status o <> Open ->
   exists t,
     run env (AddItem orderID productID price) m
       = (Done (uuid_Nil, Some ErrInvalidOrderStatus), m1, t) /\
     t = [CalledFind orderID (Some l, None); CalledLoad (Some l) o] /\
     heap m1 !! l = Some o /\
     dispatches t = []).
Proof.
  intros HFind Ho. split.
  - intros Hopen itemID o2 m2 m3 m4 now item o' HNextID Hid Ho2 HStore HDispatch.
    eexists _, _. split; [by eapply AddItem_run|].
    split; [done|]. split; [done|]. split; [done|].
    split; [apply lookup_insert_eq | done].
  - intros Hclosed. eexists. split; [by eapply AddItem_not_open|]. done.
Qed.

Lemma AddItem_requires_Open_witness :
  (exists m' t,
     run scenario.env (AddItem 100%N 55%N 10) scenario.created
       = (Done (101%N, None), m', t) /\
     heap m' !! 1%positive
       = Some (Order.mk 100%N 7%N Open [Item.mk 101%N 55%N 10] 1000 1001 None) /\
     dispatches t = [(OrderItemsChanged 100%N [101%N] [], None)]) /\
  (exists t,
     run scenario.env (AddItem 100%N 55%N 10) (scenario.with_status Paid)
       = (Done (uuid_Nil, Some ErrInvalidOrderStatus), scenario.with_status Paid, t) /\
     dispatches t = []).
Proof.
  split.
  - destruct (AddItem_requires_Open scenario.env scenario.created scenario.created
                100%N 55%N 10 1%positive
                (Order.mk 100%N 7%N Open [] 1000 1000 None) eq_refl eq_refl)
      as [Hopen _].
    edestruct (Hopen eq_refl 101%N (Order.mk 100%N 7%N Open [] 1000 1000 None))
      as (id & t & Hrun & -> & _ & _ & _ & Hdisp);
      [reflexivity | done | reflexivity | reflexivity | reflexivity |].
    eexists _, t. split; [exact Hrun|]. split; [reflexivity | exact Hdisp].
  - destruct (AddItem_requires_Open scenario.env (scenario.with_status Paid)
                (scenario.with_status Paid) 100%N 55%N 10 1%positive
                (Order.mk 100%N 7%N Paid [] 1000 1001 None) eq_refl eq_refl)
      as [_ Hclosed].
    destruct (Hclosed ltac:(done)) as (t & Hrun & _ & _ & Hdisp).
    exists t. split; [exact Hrun | exact Hdisp].
Defined.

(** C2. [SetStatus] is guarded by the current status only.  With
    collaborators that never answer [ErrInvalidOrderStatus] themselves, it
    returns that error exactly when the order found is [Cancelled]; in that
    case nothing is written or dispatched.  On any other order and for any
    target status, when the store and the dispatch succeed, the order handed
    to [Store] has the target status and [UpdatedAt] set to the time read,
    and exactly one event is dispatched, [OrderStatusChanged{orderID, status}]. *)
Theorem SetStatus_guard {S} (env : Env S) (m m1 m' : Mem S) (orderID : UUID)
        (status : OrderStatus) (l : loc) (o : Order.t)
        (out : Outcome error) (t : Trace) :
  step env (repo_Find orderID) m = Some ((Some l, None), m1) ->
  heap m1 !! l = Some o ->
  run env (SetStatus orderID status) m = (out, m', t) ->
  (never_answers env ErrInvalidOrderStatus ->
   (out = Done (Some ErrInvalidOrderStatus) <-> Order.Status o = Cancelled)) /\
  (Order.Status o = Cancelled ->
   out = Done (Some ErrInvalidOrderStatus) /\
   m' = m1 /\
   t = [CalledFind orderID (Some l, None); CalledLoad (Some l) o] /\
   dispatches t = []) /\
  (Order.Status o <> Cancelled ->
   forall (m2 m3 : Mem S),
     let now := wall_clock env (ticks m1) in
     let o' := Order.mk (Order.ID o) (Order.CustomerID o) status (Order.Items o)
                        (Order.CreatedAt o) now (Order.DeletedAt o) in
     step env (repo_Store (Some l)) (touch l o' m1) = Some (None, m2) ->
     step env (dispatcher_Dispatch (OrderStatusChanged orderID status)) m2
       = Some (None, m3) ->
     out = Done None /\
     m' = m3 /\
     t = [CalledFind orderID (Some l, None);
          CalledLoad (Some l) o;
          CalledAssign (Some l) (SetStatusField status);
          CalledNow now;
          CalledAssign (Some l) (SetUpdatedAtField now);
          CalledStore (Some l) None;
          CalledDispatch (OrderStatusChanged orderID status) None] /\
     heap (touch l o' m1) !! l = Some o' /\
     dispatches t = [(OrderStatusChanged orderID status, None)]).
Proof.
  intros HFind Ho Hrun. split; [|split].
  - intros [HStore HDispatch]. split.
    + intros ->. destruct (decide (Order.Status o = Cancelled)) as [|Hlive]; [done|].
      exfalso. unfold SetStatus in Hrun. cbn [step] in HFind. cbn [run step] in Hrun.
      rewrite HFind in Hrun. cbn [run step deref is_nil negb] in Hrun.
      rewrite Ho in Hrun. cbn [run] in Hrun. rewrite decide_False in Hrun by done.
      cbn [run step deref write heap] in Hrun. rewrite Ho in Hrun.
      inv_run.
      * by eapply HStore.
      * by eapply HDispatch.
    + intros Hcancelled.
      rewrite (SetStatus_cancelled env m m1 orderID status l o) in Hrun by done.
      by simplify_eq.
  - intros Hcancelled.
    rewrite (SetStatus_cancelled env m m1 orderID status l o) in Hrun by done.
    by simplify_eq.
  - intros Hlive m2 m3 now o' HStore HDispatch.
    rewrite (SetStatus_run env m m1 m2 m3 orderID status l o None) in Hrun by done.
    simplify_eq. repeat split. apply lookup_insert_eq.
Qed.

Lemma SetStatus_guard_witness :
  (* an open order is cancelled: one event *)
  (exists m' t,
     run scenario.env (SetStatus 100%N Cancelled) scenario.created = (Done None, m', t) /\
     m' = scenario.with_status Cancelled /\
     heap m' !! 1%positive = Some (Order.mk 100%N 7%N Cancelled [] 1000 1001 None) /\
     dispatches t = [(OrderStatusChanged 100%N Cancelled, None)]) /\
  (* a cancelled order is refused, whatever the target *)
  (exists t,
     run scenario.env (SetStatus 100%N Open) (scenario.with_status Cancelled)
       = (Done (Some ErrInvalidOrderStatus), scenario.with_status Cancelled, t) /\
     dispatches t = []) /\
  (* the error tells a cancelled order from any other one *)
  (fst (fst (run scenario.env (SetStatus 100%N Open) scenario.created))
     = Done (Some ErrInvalidOrderStatus)
   <-> Order.Status (Order.mk 100%N 7%N Open [] 1000 1000 None) = Cancelled).
Proof.
  split; [|split].
  - destruct (SetStatus_guard scenario.env scenario.created scenario.created
                (scenario.with_status Cancelled) 100%N Cancelled 1%positive
                (Order.mk 100%N 7%N Open [] 1000 1000 None) (Done None)
                (snd (run scenario.env (SetStatus 100%N Cancelled) scenario.created))
                eq_refl eq_refl eq_refl) as (_ & _ & Hlive).
    edestruct (Hlive ltac:(done)) as (_ & Hm & Ht & _ & Hdisp);
      [reflexivity | reflexivity |].
    exists (scenario.with_status Cancelled),
           (snd (run scenario.env (SetStatus 100%N Cancelled) scenario.created)).
    split; [reflexivity|]. split; [reflexivity|]. split; [reflexivity | exact Hdisp].
  - destruct (SetStatus_guard scenario.env (scenario.with_status Cancelled)
                (scenario.with_status Cancelled) (scenario.with_status Cancelled)
                100%N Open 1%positive
                (Order.mk 100%N 7%N Cancelled [] 1000 1001 None)
                (Done (Some ErrInvalidOrderStatus))
                (snd (run scenario.env (SetStatus 100%N Open) (scenario.with_status Cancelled)))
                eq_refl eq_refl eq_refl) as (_ & Hcancelled & _).
    destruct (Hcancelled eq_refl) as (_ & _ & Ht & Hdisp).
    exists (snd (run scenario.env (SetStatus 100%N Open) (scenario.with_status Cancelled))).
    split; [reflexivity | exact Hdisp].
  - exact (proj1 (SetStatus_guard scenario.env scenario.created scenario.created
                    (snd (fst (run scenario.env (SetStatus 100%N Open) scenario.created)))
                    100%N Open 1%positive
                    (Order.mk 100%N 7%N Open [] 1000 1000 None)
                    (fst (fst (run scenario.env (SetStatus 100%N Open) scenario.created)))
                    (snd (run scenario.env (SetStatus 100%N Open) scenario.created))
                    eq_refl eq_refl eq_refl) (mock_never_answers _ _ _)).
Defined.

(** C3. On an open order none of whose items carries [itemID], [DeleteItem]
    returns [ErrItemNotFound]; the memory is the one the lookup left, so the
    order (its items and every other field) is as before; nothing is written,
    stored or dispatched. *)
Theorem DeleteItem_unknown_item {S} (env : Env S) (m m1 : Mem S)
        (orderID itemID : UUID) (l : loc) (o : Order.t) :
  step env (repo_Find orderID) m = Some ((Some l, None), m1) ->
  heap m1 !! l = Some o ->
  Order.Status o = Open ->
  (forall item, item ∈ Order.Items o -> Item.ID item <> itemID) ->
  exists t,
    run env (DeleteItem orderID itemID) m = (Done (Some ErrItemNotFound), m1, t) /\
    t = [CalledFind orderID (Some l, None); CalledLoad (Some l) o] /\
    heap m1 !! l = Some o /\
    dispatches t = [].
Proof.
  intros HFind Ho Hopen Habsent. eexists. split; [|done].
  eapply DeleteItem_absent; [done..|]. by apply Forall_forall.
Qed.

Lemma DeleteItem_unknown_item_witness :
  exists t,
    run scenario.env (DeleteItem 100%N 999%N) scenario.with_two_items
      = (Done (Some ErrItemNotFound), scenario.with_two_items, t) /\
    heap scenario.with_two_items !! 1%positive
      = Some (Order.mk 100%N 7%N Open [Item.mk 101%N 55%N 10; Item.mk 102%N 56%N 20]
                       1000 1002 None) /\
    dispatches t = [].
Proof.
  destruct (DeleteItem_unknown_item scenario.env scenario.with_two_items
              scenario.with_two_items 100%N 999%N 1%positive
              (Order.mk 100%N 7%N Open [Item.mk 101%N 55%N 10; Item.mk 102%N 56%N 20]
                        1000 1002 None) eq_refl eq_refl eq_refl)
    as (t & Hrun & _ & Ho & Hdisp).
  - intros item Hin. cbn [Order.Items] in Hin.
    apply elem_of_cons in Hin as [->|Hin]; [done|].
    apply elem_of_cons in Hin as [->|Hin]; [done|].
    by apply elem_of_nil in Hin.
  - exists t. split; [exact Hrun|]. split; [exact Ho | exact Hdisp].
Defined.

(** C4, as stated, fails for [DeleteOrder].  In the scenario of the tests
    the order 100 is created when the clock shows 1000 and deleted when it
    shows 1001: [DeleteOrder] succeeds, the stored record gets
    [DeletedAt = 1001], and its [UpdatedAt] is still 1000. *)
Lemma DeleteOrder_does_not_refresh_UpdatedAt :
  (exists m' t,
     run scenario.env (DeleteOrder 100%N) scenario.created = (Done None, m', t) /\
     ticks scenario.created = 1%nat /\ ticks m' = 2%nat /\
     scenario.clock 1 = 1001 /\
     mock.store (ext m') !! 100%N = Some (Some 1%positive) /\
     heap m' !! 1%positive = Some (Order.mk 100%N 7%N Open [] 1000 1000 (Some 1001))) /\
  ~ refreshes_UpdatedAt scenario.env (fun _ => 100%N) id (DeleteOrder 100%N).
Proof.
  split.
  - eexists _, _. split; [reflexivity|]. repeat split.
  - intros Hrefresh.
    destruct (Hrefresh scenario.created _ None _ 1%positive
                (Order.mk 100%N 7%N Open [] 1000 1000 (Some 1001))
                eq_refl eq_refl eq_refl eq_refl) as (n & [Hlo Hhi] & Hn).
    change (1 <= n)%nat in Hlo. change (n < 2)%nat in Hhi.
    change (1000 = 1000 + Z.of_nat n) in Hn. lia.
Qed.

(** C4, amended.  Every operation that succeeds has dispatched exactly one
    event.  [CreateOrder], [SetStatus], [AddItem] and [DeleteItem], when they
    succeed, leave the stored order with [UpdatedAt] equal to a time read
    from the clock during the operation.  [DeleteOrder] does not: when it
    succeeds, the stored order is as it was but for [DeletedAt], so its
    [UpdatedAt] is the former one. *)
Theorem successful_mutation_effects :
  (forall (S : Type) (env : Env S),
      (forall customerID,
          dispatches_once env snd (CreateOrder customerID)) /\
      (forall orderID,
          dispatches_once env id (DeleteOrder orderID)) /\
      (forall orderID status,
          dispatches_once env id (SetStatus orderID status)) /\
      (forall orderID productID price,
          dispatches_once env snd (AddItem orderID productID price)) /\
      (forall orderID itemID,
          dispatches_once env id (DeleteItem orderID itemID))) /\
  (forall (NewV7 : nat -> UUID * error) (clock : nat -> Time),
      (forall customerID,
          refreshes_UpdatedAt (mock.env NewV7 clock) fst snd (CreateOrder customerID)) /\
      (forall orderID status,
          refreshes_UpdatedAt (mock.env NewV7 clock) (fun _ => orderID) id
                              (SetStatus orderID status)) /\
      (forall orderID productID price,
          refreshes_UpdatedAt (mock.env NewV7 clock) (fun _ => orderID) snd
                              (AddItem orderID productID price)) /\
      (forall orderID itemID,
          refreshes_UpdatedAt (mock.env NewV7 clock) (fun _ => orderID) id
                              (DeleteItem orderID itemID)) /\
      (forall orderID,
          sets_DeletedAt_only (mock.env NewV7 clock) orderID (DeleteOrder orderID))).
Proof.
  split.
  - intros S env. split; [|split; [|split; [|split]]]; intros.
    + apply CreateOrder_once.
    + apply DeleteOrder_once.
    + apply SetStatus_once.
    + apply AddItem_once.
    + apply DeleteItem_once.
  - intros NewV7 clock. split; [|split; [|split; [|split]]]; intros.
    + apply CreateOrder_refreshes.
    + apply SetStatus_refreshes.
    + apply AddItem_refreshes.
    + apply DeleteItem_refreshes.
    + apply DeleteOrder_sets_DeletedAt_only.
Qed.

Lemma successful_mutation_effects_witness :
  (* setting a status at time 1001 *)
  (exists n : nat,
      (1 <= n < 2)%nat /\
      Order.UpdatedAt (Order.mk 100%N 7%N Paid [] 1000 1001 None) = scenario.clock n) /\
  (exists ev,
      dispatches (snd (run scenario.env (SetStatus 100%N Paid) scenario.created))
        = [(ev, None)]) /\
  (* deleting the order at time 1001 *)
  (exists ev,
      dispatches (snd (run scenario.env (DeleteOrder 100%N) scenario.created))
        = [(ev, None)]) /\
  heap (snd (fst (run scenario.env (DeleteOrder 100%N) scenario.created))) !! 1%positive
    = Some (Order.mk 100%N 7%N Open [] 1000 1000 (Some 1001)).
Proof.
  destruct successful_mutation_effects as [Honce Hmock].
  destruct (Honce _ scenario.env) as (_ & HDeleteOrder & HSetStatus & _).
  destruct (Hmock scenario.NewV7 scenario.clock) as (_ & Hrefresh & _ & _ & Hdelete).
  split; [|split; [|split]].
  - exact (Hrefresh 100%N Paid scenario.created (scenario.with_status Paid) None
             (snd (run scenario.env (SetStatus 100%N Paid) scenario.created))
             1%positive (Order.mk 100%N 7%N Paid [] 1000 1001 None)
             eq_refl eq_refl eq_refl eq_refl).
  - exact (HSetStatus 100%N Paid scenario.created (scenario.with_status Paid) None
             (snd (run scenario.env (SetStatus 100%N Paid) scenario.created))
             eq_refl eq_refl).
  - exact (HDeleteOrder 100%N scenario.created
             (snd (fst (run scenario.env (DeleteOrder 100%N) scenario.created))) None
             (snd (run scenario.env (DeleteOrder 100%N) scenario.created))
             eq_refl eq_refl).
  - exact (proj2 (Hdelete 100%N scenario.created
                    (snd (fst (run scenario.env (DeleteOrder 100%N) scenario.created)))
                    (snd (run scenario.env (DeleteOrder 100%N) scenario.created))
                    1%positive (Order.mk 100%N 7%N Open [] 1000 1000 None)
                    eq_refl eq_refl eq_refl)).
Defined.

(** C5. On the repository of the tests, [DeleteOrder] returns
    [ErrOrderNotFound] when no order is stored under the identifier or the
    stored one is already deleted; the repository's [Delete] checks this
    again by itself, so when another caller deletes the order after the
    lookup has answered, the operation still returns [ErrOrderNotFound] and
    dispatches nothing.  On an order that is live, [DeleteOrder] succeeds:
    the record stays stored, with [DeletedAt] set and nothing else changed,
    a later [Find] answers [ErrOrderNotFound], and exactly one event is
    dispatched, [OrderDeleted{orderID}]. *)
Theorem DeleteOrder_soft_deletes (NewV7 : nat -> UUID * error) (clock : nat -> Time)
        (m : Mem mock.State) (orderID : UUID) :
  (gone m orderID ->
   run (mock.env NewV7 clock) (DeleteOrder orderID) m =
     (Done (Some ErrOrderNotFound), m,
      [CalledFind orderID (None, Some ErrOrderNotFound)]) /\
   step (mock.env NewV7 clock) (repo_Delete orderID) m
     = Some (Some ErrOrderNotFound, m)) /\
  (forall (l : loc) (o : Order.t),
      live m orderID l o ->
      (exists m' t,
          run (mock.env NewV7 clock) (DeleteOrder orderID) m = (Done None, m', t) /\
          t = [CalledFind orderID (Some l, None);
               CalledDelete orderID None;
               CalledDispatch (OrderDeleted orderID) None] /\
          mock.store (ext m') !! orderID = Some (Some l) /\
          heap m' !! l
            = Some (Order.mk (Order.ID o) (Order.CustomerID o) (Order.Status o)
                             (Order.Items o) (Order.CreatedAt o) (Order.UpdatedAt o)
                             (Some (clock (ticks m)))) /\
          step (mock.env NewV7 clock) (repo_Find orderID) m'
            = Some ((None, Some ErrOrderNotFound), m') /\
          dispatches t = [(OrderDeleted orderID, None)] /\
          mock.events (ext m') = mock.events (ext m) ++ [OrderDeleted orderID]) /\
      (exists m' t,
          run (mock.racing_env NewV7 clock) (DeleteOrder orderID) m
            = (Done (Some ErrOrderNotFound), m', t) /\
          t = [CalledFind orderID (Some l, None);
               CalledDelete orderID (Some ErrOrderNotFound)] /\
          dispatches t = [] /\
          mock.events (ext m') = mock.events (ext m))).
Proof.
  split.
  - intros Hgone. cbn [step mock.env on_Delete on_Find].
    split; [|by apply mock_Delete_gone].
    unfold DeleteOrder. cbn [run step mock.env on_Find].
    by rewrite mock_Find_gone.
  - intros l o Hlive. split.
    + eexists _, _. split.
      { eapply DeleteOrder_run; cbn [step mock.env on_Find on_Delete on_Dispatch].
        - by eapply mock_Find_live.
        - by eapply mock_Delete_live.
        - reflexivity. }
      split; [done|]. destruct Hlive as (Hid & Ho & Hdel).
      split; [done|]. split; [apply lookup_insert_eq|]. split; [|done].
      cbn [step mock.env on_Find]. apply mock_Find_gone.
      right. eexists l, _. split; [exact Hid|].
      split; [apply lookup_insert_eq | done].
    + eexists _, _. unfold DeleteOrder.
      cbn [run step mock.racing_env on_Find on_Delete].
      unfold mock.Find_then_other_Delete.
      rewrite (mock_Find_live m orderID l o Hlive).
      rewrite (mock_Delete_live clock m orderID l o Hlive).
      cbn [is_nil negb run step on_Delete mock.racing_env].
      rewrite (mock_Delete_gone clock _ orderID (tombstoned_gone clock m orderID l o Hlive)).
      by cbn.
Qed.

Lemma DeleteOrder_soft_deletes_witness :
  (* the order of the scenario is live; deleting it succeeds *)
  live scenario.created 100%N 1%positive (Order.mk 100%N 7%N Open [] 1000 1000 None) /\
  (exists m' t,
     run scenario.env (DeleteOrder 100%N) (scenario.cleared scenario.created)
       = (Done None, m', t) /\
     heap m' !! 1%positive = Some (Order.mk 100%N 7%N Open [] 1000 1000 (Some 1001)) /\
     mock.events (ext m') = [OrderDeleted 100%N] /\
     (* deleting it once more fails, and so does deleting an unknown order *)
     fst (fst (run scenario.env (DeleteOrder 100%N) m')) = Done (Some ErrOrderNotFound)) /\
  fst (fst (run scenario.env (DeleteOrder 555%N) scenario.created))
    = Done (Some ErrOrderNotFound).
Proof.
  assert (live (scenario.cleared scenario.created) 100%N 1%positive
               (Order.mk 100%N 7%N Open [] 1000 1000 None)) as Hlive
    by (split; [reflexivity | split; reflexivity]).
  split; [split; [reflexivity | split; reflexivity]|]. split.
  - destruct (DeleteOrder_soft_deletes scenario.NewV7 scenario.clock
                (scenario.cleared scenario.created) 100%N) as [_ Hok].
    destruct (Hok _ _ Hlive) as [(m' & t & Hrun & _ & Hst & Ho & _ & _ & Hev) _].
    exists m', t. split; [exact Hrun|]. split; [exact Ho|]. split; [exact Hev|].
    destruct (DeleteOrder_soft_deletes scenario.NewV7 scenario.clock m' 100%N)
      as [Hgone _].
    assert (gone m' 100%N) as Hm'.
    { right. exists 1%positive, (Order.mk 100%N 7%N Open [] 1000 1000 (Some 1001)).
      split; [exact Hst | split; [exact Ho | done]]. }
    exact (f_equal (fun r => fst (fst r)) (proj1 (Hgone Hm'))).
  - destruct (DeleteOrder_soft_deletes scenario.NewV7 scenario.clock
                scenario.created 555%N) as [Hgone _].
    exact (f_equal (fun r => fst (fst r)) (proj1 (Hgone (or_introl eq_refl)))).
Defined.

(** C6. A successful [CreateOrder] returns the identifier the repository
    allocated (non-nil when the repository allocates non-nil identifiers),
    has handed to [Store] a new order that is [Open], has no items, belongs
    to the given customer and whose [CreatedAt] equals its [UpdatedAt], and
    has dispatched exactly one event, [OrderCreated] with that identifier and
    that customer. *)
Theorem CreateOrder_success {S} (env : Env S) (m m' : Mem S)
        (customerID orderID : UUID) (t : Trace) :
  allocates_non_nil env ->
  run env (CreateOrder customerID) m = (Done (orderID, None), m', t) ->
  orderID <> uuid_Nil /\
  exists (order : Order.t) (l : loc) (now : Time) (m1 m2 : Mem S),
    t = [CalledNextID (orderID, None);
         CalledNow now;
         CalledNew order (Some l);
         CalledStore (Some l) None;
         CalledDispatch (OrderCreated orderID customerID) None] /\
    heap m1 !! l = Some order /\
    step env (repo_Store (Some l)) m1 = Some (None, m2) /\
    Order.ID order = orderID /\
    Order.CustomerID order = customerID /\
    Order.Status order = Open /\
    Order.Items order = [] /\
    Order.CreatedAt order = Order.UpdatedAt order /\
    Order.DeletedAt order = None /\
    dispatches t = [(OrderCreated orderID customerID, None)].
Proof.
  intros Hids Hrun. unfold CreateOrder in Hrun. cbn [run step] in Hrun.
  inv_run. split; [by eapply Hids|].
  match goal with
  | H : on_Store env _ ?mm = Some (None, ?m2) |- _ =>
      eexists _, _, _, mm, m2; split; [done|]; split; [|done]
  end.
  apply lookup_insert_eq.
Qed.

Lemma CreateOrder_success_witness :
  allocates_non_nil scenario.env /\
  run scenario.env (CreateOrder 7%N) mock.setup =
    (Done (100%N, None), scenario.created,
     [CalledNextID (100%N, None);
      CalledNow 1000;
      CalledNew (Order.mk 100%N 7%N Open [] 1000 1000 None) (Some 1%positive);
      CalledStore (Some 1%positive) None;
      CalledDispatch (OrderCreated 100%N 7%N) None]) /\
  mock.store (ext scenario.created) !! 100%N = Some (Some 1%positive) /\
  heap scenario.created !! 1%positive = Some (Order.mk 100%N 7%N Open [] 1000 1000 None) /\
  (100%N : UUID) <> uuid_Nil.
Proof.
  assert (allocates_non_nil scenario.env) as Hids.
  { intros m m' id H.
    unfold scenario.env, mock.env, mock.NextID, scenario.NewV7 in H. simpl in H.
    injection H as H _. rewrite <- H. unfold uuid_Nil. lia. }
  split; [exact Hids|]. split; [reflexivity|]. split; [reflexivity|]. split; [reflexivity|].
  exact (proj1 (CreateOrder_success scenario.env mock.setup scenario.created
                  7%N 100%N _ Hids eq_refl)).
Defined.

(** C7. Every operation dispatches only after persistence has succeeded: a
    failed identifier allocation or repository call ends the operation with
    that error and without any dispatch; a dispatch comes right after a
    successful [Store] (or [Delete]) and is the last thing the operation
    does, so when the dispatch fails the operation returns that failure and
    undoes nothing. *)
Theorem dispatch_only_after_persistence {S} (env : Env S) :
  (forall customerID,
      dispatch_after_persistence env snd (CreateOrder customerID)) /\
  (forall orderID,
      dispatch_after_persistence env id (DeleteOrder orderID)) /\
  (forall orderID status,
      dispatch_after_persistence env id (SetStatus orderID status)) /\
  (forall orderID productID price,
      dispatch_after_persistence env snd (AddItem orderID productID price)) /\
  (forall orderID itemID,
      dispatch_after_persistence env id (DeleteItem orderID itemID)).
Proof.
  split; [|split; [|split; [|split]]]; intros.
  - apply CreateOrder_discipline.
  - apply DeleteOrder_discipline.
  - apply SetStatus_discipline.
  - apply AddItem_discipline.
  - apply DeleteItem_discipline.
Qed.

Lemma dispatch_only_after_persistence_witness :
  (* the store fails: its error is returned, nothing is dispatched *)
  (outcome_error snd
     (fst (fst (run faulty.store_fails (AddItem 100%N 55%N 10) scenario.created)))
     = Some (Some (ErrOther "store")) /\
   dispatches (snd (run faulty.store_fails (AddItem 100%N 55%N 10) scenario.created))
     = []) /\
  (* the dispatch fails: its error is returned, the new status stays stored *)
  (outcome_error id
     (fst (fst (run faulty.dispatch_fails (SetStatus 100%N Paid) scenario.created)))
     = Some (Some (ErrOther "dispatch")) /\
   heap (snd (fst (run faulty.dispatch_fails (SetStatus 100%N Paid) scenario.created)))
     !! 1%positive = Some (Order.mk 100%N 7%N Paid [] 1000 1001 None)).
Proof.
  split.
  - destruct (dispatch_only_after_persistence faulty.store_fails)
      as (_ & _ & _ & HAddItem & _).
    pose (r := run faulty.store_fails (AddItem 100%N 55%N 10) scenario.created).
    destruct (HAddItem 100%N 55%N 10 scenario.created (snd (fst r)) (fst (fst r)) (snd r)
                eq_refl) as [Hfail _].
    apply (Hfail (CalledStore (Some 1%positive) (Some (ErrOther "store")))).
    + do 7 right. left.
    + reflexivity.
  - destruct (dispatch_only_after_persistence faulty.dispatch_fails)
      as (_ & _ & HSetStatus & _).
    pose (r := run faulty.dispatch_fails (SetStatus 100%N Paid) scenario.created).
    destruct (HSetStatus 100%N Paid scenario.created (snd (fst r)) (fst (fst r)) (snd r)
                eq_refl) as [_ Hdispatch].
    destruct (Hdispatch
                [CalledFind 100%N (Some 1%positive, None);
                 CalledLoad (Some 1%positive) (Order.mk 100%N 7%N Open [] 1000 1000 None);
                 CalledAssign (Some 1%positive) (SetStatusField Paid);
                 CalledNow 1001;
                 CalledAssign (Some 1%positive) (SetUpdatedAtField 1001);
                 CalledStore (Some 1%positive) None]
                (OrderStatusChanged 100%N Paid) (Some (ErrOther "dispatch")) [] eq_refl)
      as (_ & _ & _ & Hout & _).
    split; [exact Hout | reflexivity].
Defined.

(** C8. On an open order with N items one of which carries [itemID], when the
    store and the dispatch succeed, [DeleteItem] succeeds and the items of
    the order handed to [Store] are the former items with one item of that
    identifier taken out: N-1 items, in their former relative order. *)
Theorem DeleteItem_removes_one {S} (env : Env S) (m m1 m2 m3 : Mem S)
        (orderID itemID : UUID) (l : loc) (o : Order.t) :
  let now := wall_clock env (ticks m1) in
  let items' := remove_at (Order.Items o) (find_item_index (Order.Items o) itemID 0) in
  let o' := Order.mk (Order.ID o) (Order.CustomerID o) (Order.Status o) items'
                     (Order.CreatedAt o) now (Order.DeletedAt o) in
  step env (repo_Find orderID) m = Some ((Some l, None), m1) ->
  heap m1 !! l = Some o ->
  Order.Status o = Open ->
  (exists item, item ∈ Order.Items o /\ Item.ID item = itemID) ->
  step env (repo_Store (Some l)) (touch l o' m1) = Some (None, m2) ->
  step env (dispatcher_Dispatch (OrderItemsChanged orderID [] [itemID])) m2
    = Some (None, m3) ->
  run env (DeleteItem orderID itemID) m =
    (Done None, m3,
     [CalledFind orderID (Some l, None);
      CalledLoad (Some l) o;
      CalledAssign (Some l) (SetItemsField items');
      CalledNow now;
      CalledAssign (Some l) (SetUpdatedAtField now);
      CalledStore (Some l) None;
      CalledDispatch (OrderItemsChanged orderID [] [itemID]) None]) /\
  heap (touch l o' m1) !! l = Some o' /\
  length (Order.Items o) = (length items' + 1)%nat /\
  items' `sublist_of` Order.Items o /\
  exists pre item post,
    Order.Items o = pre ++ item :: post /\
    Item.ID item = itemID /\
    items' = pre ++ post.
Proof.
  intros now items' o' HFind Ho Hopen (it & Hin & Hit) HStore HDispatch.
  destruct (find_item_index_first (Order.Items o) itemID 0)
    as (pre & item & post & Hitems & Hid & Hpre & Hidx); [done | |].
  { intros Habsent. apply find_item_index_absent in Habsent; [|done].
    by eapply Forall_forall in Habsent. }
  assert (items' = pre ++ post) as Hitems'.
  { subst items'. rewrite Hidx, Z.add_0_l. rewrite Hitems at 1. apply remove_at_middle. }
  subst o'. rewrite Hitems' in *. split; [by eapply DeleteItem_run|].
  split; [apply lookup_insert_eq|]. split; [|split].
  - rewrite Hitems, !length_app. simpl. lia.
  - rewrite Hitems. apply sublist_app; [done|]. by apply sublist_cons.
  - by exists pre, item, post.
Qed.

Lemma DeleteItem_removes_one_witness :
  exists m',
    run scenario.env (DeleteItem 100%N 101%N) scenario.with_two_items =
      (Done None, m',
       [CalledFind 100%N (Some 1%positive, None);
        CalledLoad (Some 1%positive)
          (Order.mk 100%N 7%N Open [Item.mk 101%N 55%N 10; Item.mk 102%N 56%N 20]
                    1000 1002 None);
        CalledAssign (Some 1%positive) (SetItemsField [Item.mk 102%N 56%N 20]);
        CalledNow 1003;
        CalledAssign (Some 1%positive) (SetUpdatedAtField 1003);
        CalledStore (Some 1%positive) None;
        CalledDispatch (OrderItemsChanged 100%N [] [101%N]) None]) /\
    heap m' !! 1%positive
      = Some (Order.mk 100%N 7%N Open [Item.mk 102%N 56%N 20] 1000 1003 None).
Proof.
  eexists. split.
  - refine (proj1 (DeleteItem_removes_one scenario.env scenario.with_two_items
                     scenario.with_two_items _ _ 100%N 101%N 1%positive
                     (Order.mk 100%N 7%N Open
                               [Item.mk 101%N 55%N 10; Item.mk 102%N 56%N 20]
                               1000 1002 None)
                     eq_refl eq_refl eq_refl _ _ _)).
    + exists (Item.mk 101%N 55%N 10). split; [by left | done].
    + reflexivity.
    + reflexivity.
  - reflexivity.
Defined.

(** C9. When the order is stored and the dispatch then fails, [CreateOrder]
    returns the identifier it allocated together with the dispatcher's error,
    and so does [AddItem] with the item identifier: the caller gets a non-nil
    identifier and a non-nil error in one result. *)
Theorem dispatch_failure_returns_id_and_error {S} (env : Env S) :
  (forall (customerID orderID : UUID) (e : Err) (m m1 m2 m3 : Mem S),
      let now := wall_clock env (ticks m1) in
      let order := Order.mk orderID customerID Open [] now now None in
      let l := fresh (dom (heap m1)) in
      step env repo_NextID m = Some ((orderID, None), m1) ->
      orderID <> uuid_Nil ->
      step env (repo_Store (Some l)) (touch l order m1) = Some (None, m2) ->
      step env (dispatcher_Dispatch (OrderCreated orderID customerID)) m2
        = Some (Some e, m3) ->
      exists id err t,
        run env (CreateOrder customerID) m = (Done (id, err), m3, t) /\
        id = orderID /\ id <> uuid_Nil /\ err = Some e /\
        CalledStore (Some l) None ∈ t) /\
  (forall (orderID productID itemID : UUID) (price : float64) (l : loc)
          (o o2 : Order.t) (e : Err) (m m1 m2 m3 m4 : Mem S),
      let now := wall_clock env (ticks m2) in
      let o' := Order.mk (Order.ID o2) (Order.CustomerID o2) (Order.Status o2)
                         (Order.Items o2 ++ [Item.mk itemID productID price])
                         (Order.CreatedAt o2) now (Order.DeletedAt o2) in
      step env (repo_Find orderID) m = Some ((Some l, None), m1) ->
      heap m1 !! l = Some o ->
      Order.Status o = Open ->
      step env repo_NextID m1 = Some ((itemID, None), m2) ->
      itemID <> uuid_Nil ->
      heap m2 !! l = Some o2 ->
      step env (repo_Store (Some l)) (touch l o' m2) = Some (None, m3) ->
      step env (dispatcher_Dispatch (OrderItemsChanged orderID [itemID] [])) m3
        = Some (Some e, m4) ->
      exists id err t,
        run env (AddItem orderID productID price) m = (Done (id, err), m4, t) /\
        id = itemID /\ id <> uuid_Nil /\ err = Some e /\
        CalledStore (Some l) None ∈ t).
Proof.
  split.
  - intros customerID orderID e m m1 m2 m3 now order l HNextID Hid HStore HDispatch.
    eexists _, _, _. split; [by eapply CreateOrder_run|].
    repeat split; [done|]. do 3 right. left.
  - intros orderID productID itemID price l o o2 e m m1 m2 m3 m4 now o'
           HFind Ho Hopen HNextID Hid Ho2 HStore HDispatch.
    eexists _, _, _. split; [by eapply AddItem_run|].
    repeat split; [done|]. do 7 right. left.
Qed.

Lemma dispatch_failure_returns_id_and_error_witness :
  (exists m' t,
     run faulty.dispatch_fails (CreateOrder 7%N) mock.setup
       = (Done (100%N, Some (ErrOther "dispatch")), m', t) /\
     mock.store (ext m') !! 100%N = Some (Some 1%positive)) /\
  (exists m' t,
     run faulty.dispatch_fails (AddItem 100%N 55%N 10) scenario.created
       = (Done (101%N, Some (ErrOther "dispatch")), m', t) /\
     heap m' !! 1%positive
       = Some (Order.mk 100%N 7%N Open [Item.mk 101%N 55%N 10] 1000 1001 None)).
Proof.
  destruct (dispatch_failure_returns_id_and_error faulty.dispatch_fails)
    as [HCreate HAdd].
  split.
  - edestruct (HCreate 7%N 100%N (ErrOther "dispatch") mock.setup)
      as (id & err & t & Hrun & -> & _ & -> & _);
      [reflexivity | done | reflexivity | reflexivity |].
    eexists _, t. split; [exact Hrun | reflexivity].
  - edestruct (HAdd 100%N 55%N 101%N 10 1%positive
                    (Order.mk 100%N 7%N Open [] 1000 1000 None)
                    (Order.mk 100%N 7%N Open [] 1000 1000 None)
                    (ErrOther "dispatch") scenario.created)
      as (id & err & t & Hrun & -> & _ & -> & _);
      [reflexivity | reflexivity | reflexivity | reflexivity | done
       | reflexivity | reflexivity | reflexivity |].
    eexists _, t. split; [exact Hrun | reflexivity].
Defined.

(** C10. When several items of an open order carry [itemID], [DeleteItem]
    takes out the leftmost of them only: with [first] the leftmost such item,
    between [pre] and [post], the items handed to [Store] are [pre ++ post],
    so every later item with that identifier is still there, in its place. *)
Theorem DeleteItem_removes_leftmost {S} (env : Env S) (m m1 m2 m3 : Mem S)
        (orderID itemID : UUID) (l : loc) (o : Order.t)
        (pre post : list Item.t) (first : Item.t) :
  let now := wall_clock env (ticks m1) in
  let o' := Order.mk (Order.ID o) (Order.CustomerID o) (Order.Status o) (pre ++ post)
                     (Order.CreatedAt o) now (Order.DeletedAt o) in
  step env (repo_Find orderID) m = Some ((Some l, None), m1) ->
  heap m1 !! l = Some o ->
  Order.Status o = Open ->
  Order.Items o = pre ++ first :: post ->
  Item.ID first = itemID ->
  (forall it, it ∈ pre -> Item.ID it <> itemID) ->
  (exists later, later ∈ post /\ Item.ID later = itemID) ->
  step env (repo_Store (Some l)) (touch l o' m1) = Some (None, m2) ->
  step env (dispatcher_Dispatch (OrderItemsChanged orderID [] [itemID])) m2
    = Some (None, m3) ->
  run env (DeleteItem orderID itemID) m =
    (Done None, m3,
     [CalledFind orderID (Some l, None);
      CalledLoad (Some l) o;
      CalledAssign (Some l) (SetItemsField (pre ++ post));
      CalledNow now;
      CalledAssign (Some l) (SetUpdatedAtField now);
      CalledStore (Some l) None;
      CalledDispatch (OrderItemsChanged orderID [] [itemID]) None]) /\
  heap (touch l o' m1) !! l = Some o' /\
  filter (fun it => Item.ID it = itemID) (Order.Items o') =
    filter (fun it => Item.ID it = itemID) post /\
  (exists later, later ∈ Order.Items o' /\ Item.ID later = itemID).
Proof.
  intros now o' HFind Ho Hopen Hitems Hid Hpre (later & Hin & Hlater) HStore HDispatch.
  apply Forall_forall in Hpre.
  split; [by eapply DeleteItem_run|]. split; [apply lookup_insert_eq|].
  cbn [Order.Items o']. split.
  - by rewrite filter_app, filter_no_match.
  - exists later. split; [|done]. apply elem_of_app. by right.
Qed.

Lemma DeleteItem_removes_leftmost_witness :
  exists m',
    fst (run scenario.env (DeleteItem 100%N 101%N) duplicates.mem) = (Done None, m') /\
    heap m' !! 1%positive
      = Some (Order.mk 100%N 7%N Open
                [Item.mk 102%N 56%N 20; Item.mk 103%N 57%N 30; Item.mk 101%N 58%N 40]
                1000 1005 None).
Proof.
  eexists. split.
  - refine (f_equal fst
              (proj1 (DeleteItem_removes_leftmost scenario.env duplicates.mem
                        duplicates.mem _ _ 100%N 101%N 1%positive duplicates.order
                        [Item.mk 102%N 56%N 20]
                        [Item.mk 103%N 57%N 30; Item.mk 101%N 58%N 40]
                        (Item.mk 101%N 55%N 10)
                        eq_refl eq_refl eq_refl eq_refl eq_refl _ _ _ _))).
    + intros it Hin. apply elem_of_cons in Hin as [->|Hin]; [done|].
      by apply elem_of_nil in Hin.
    + exists (Item.mk 101%N 58%N 40). split; [|done]. right. left.
    + reflexivity.
    + reflexivity.
  - reflexivity.
Defined.

(** * Further properties of the service *)

(** ** The scan of [DeleteItem] stays within the slice *)

(** X1. The index the scan of [DeleteItem] (order.go 149-155) answers is -1,
    and then no item carries the identifier, or it lies within the slice (so
    the two slicings of line 161 are in range), the item there carries the
    identifier and no item before it does. *)
Theorem find_item_index_in_range (items : list Item.t) (itemID : UUID) :
  (find_item_index items itemID 0 = -1 /\
   Forall (fun item => Item.ID item <> itemID) items) \/
  (0 <= find_item_index items itemID 0 < Z.of_nat (length items) /\
   exists item,
     items !! Z.to_nat (find_item_index items itemID 0) = Some item /\
     Item.ID item = itemID /\
     forall (j : nat) (it : Item.t),
       (j < Z.to_nat (find_item_index items itemID 0))%nat ->
       items !! j = Some it -> Item.ID it <> itemID).
Proof.
  destruct (decide (find_item_index items itemID 0 = -1)) as [Hnone|Hfound].
  - left. split; [done|]. by apply (find_item_index_absent items itemID 0).
  - right.
    destruct (find_item_index_first items itemID 0)
      as (pre & item & post & -> & Hid & Hpre & ->); [done..|].
    rewrite Z.add_0_l, Nat2Z.id. split.
    + rewrite length_app. simpl. lia.
    + exists item. split; [by rewrite list_lookup_middle|]. split; [done|].
      intros j it Hj Hit. rewrite lookup_app_l in Hit by done.
      by eapply Forall_lookup_1 in Hit; [|exact Hpre].
Qed.

(** ** Failures before anything is written *)

(** X2. On an order that is not [Open], [DeleteItem] (order.go 145-147)
    returns [ErrInvalidOrderStatus] before it looks at the items, be the
    item there or not: nothing is written, stored or dispatched and the
    memory is the one the lookup left. *)
Theorem DeleteItem_requires_Open {S} (env : Env S) (m m1 : Mem S)
        (orderID itemID : UUID) (l : loc) (o : Order.t) :
  step env (repo_Find orderID) m = Some ((Some l, None), m1) ->
  heap m1 !! l = Some o ->
  Order.Status o <> Open ->
  run env (DeleteItem orderID itemID) m =
    (Done (Some ErrInvalidOrderStatus), m1,
     [CalledFind orderID (Some l, None); CalledLoad (Some l) o]).
Proof.
  intros HFind Ho Hclosed. unfold DeleteItem. cbn [step] in *. by exec.
Qed.

Lemma DeleteItem_requires_Open_witness :
  run scenario.env (DeleteItem 100%N 101%N) (scenario.with_status Paid) =
    (Done (Some ErrInvalidOrderStatus), scenario.with_status Paid,
     [CalledFind 100%N (Some 1%positive, None);
      CalledLoad (Some 1%positive) (Order.mk 100%N 7%N Paid [] 1000 1001 None)]).
Proof.
  apply (DeleteItem_requires_Open scenario.env (scenario.with_status Paid)
           (scenario.with_status Paid) 100%N 101%N 1%positive
           (Order.mk 100%N 7%N Paid [] 1000 1001 None));
    [reflexivity | reflexivity | done].
Defined.

(** X3. When the first call of an operation fails (the allocation of the
    identifier in [CreateOrder], the lookup in the four others), the
    operation returns that error at once, with [uuid.Nil] where it returns an
    identifier: it makes no other call, and an order answered along with the
    error is not read.  The same holds in [AddItem] when the allocation of
    the item identifier fails after the lookup: nothing was written. *)
Theorem first_failure_stops {S} (env : Env S) (m m1 : Mem S) (e : Err) :
  (forall customerID id,
      step env repo_NextID m = Some ((id, Some e), m1) ->
      run env (CreateOrder customerID) m =
        (Done (uuid_Nil, Some e), m1, [CalledNextID (id, Some e)])) /\
  (forall orderID p,
      step env (repo_Find orderID) m = Some ((p, Some e), m1) ->
      run env (DeleteOrder orderID) m =
        (Done (Some e), m1, [CalledFind orderID (p, Some e)])) /\
  (forall orderID status p,
      step env (repo_Find orderID) m = Some ((p, Some e), m1) ->
      run env (SetStatus orderID status) m =
        (Done (Some e), m1, [CalledFind orderID (p, Some e)])) /\
  (forall orderID productID price p,
      step env (repo_Find orderID) m = Some ((p, Some e), m1) ->
      run env (AddItem orderID productID price) m =
        (Done (uuid_Nil, Some e), m1, [CalledFind orderID (p, Some e)])) /\
  (forall orderID itemID p,
      step env (repo_Find orderID) m = Some ((p, Some e), m1) ->
      run env (DeleteItem orderID itemID) m =
        (Done (Some e), m1, [CalledFind orderID (p, Some e)])) /\
  (forall orderID productID price l o id m0,
      step env (repo_Find orderID) m0 = Some ((Some l, None), m) ->
      heap m !! l = Some o ->
      Order.Status o = Open ->
      step env repo_NextID m = Some ((id, Some e), m1) ->
      run env (AddItem orderID productID price) m0 =
        (Done (uuid_Nil, Some e), m1,
         [CalledFind orderID (Some l, None); CalledLoad (Some l) o;
          CalledNextID (id, Some e)])).
Proof.
  repeat split; intros; cbn [step] in *.
  - unfold CreateOrder. by exec.
  - unfold DeleteOrder. by exec.
  - unfold SetStatus. by exec.
  - unfold AddItem. by exec.
  - unfold DeleteItem. by exec.
  - unfold AddItem. by exec.
Qed.

Lemma first_failure_stops_witness :
  run scenario.env (SetStatus 555%N Paid) scenario.created =
    (Done (Some ErrOrderNotFound), scenario.created,
     [CalledFind 555%N (None, Some ErrOrderNotFound)]) /\
  run scenario.env (AddItem 555%N 55%N 10) scenario.created =
    (Done (uuid_Nil, Some ErrOrderNotFound), scenario.created,
     [CalledFind 555%N (None, Some ErrOrderNotFound)]).
Proof.
  destruct (first_failure_stops scenario.env scenario.created scenario.created
              ErrOrderNotFound) as (_ & _ & HSetStatus & HAddItem & _).
  split.
  - by apply HSetStatus.
  - by apply HAddItem.
Defined.

(** ** Identifiers, events and the heap when things go wrong *)



(** X5. The service writes through the pointer the lookup answered before it
    calls [Store], and takes nothing back when [Store] fails: [SetStatus],
    [AddItem] and [DeleteItem] then return the error of [Store] without any
    dispatch, and the memory is the one [Store] left when it was handed the
    order already rewritten (new status, item appended, item removed). *)
Theorem store_failure_keeps_writes {S} (env : Env S) (m m1 : Mem S)
        (orderID : UUID) (l : loc) (o : Order.t) (e : Err) :
  step env (repo_Find orderID) m = Some ((Some l, None), m1) ->
  heap m1 !! l = Some o ->
  (forall status m2,
      let now := wall_clock env (ticks m1) in
      let o' := Order.mk (Order.ID o) (Order.CustomerID o) status (Order.Items o)
                         (Order.CreatedAt o) now (Order.DeletedAt o) in
      Order.Status o <> Cancelled ->
      step env (repo_Store (Some l)) (touch l o' m1) = Some (Some e, m2) ->
      heap (touch l o' m1) !! l = Some o' /\
      run env (SetStatus orderID status) m =
        (Done (Some e), m2,
         [CalledFind orderID (Some l, None);
          CalledLoad (Some l) o;
          CalledAssign (Some l) (SetStatusField status);
          CalledNow now;
          CalledAssign (Some l) (SetUpdatedAtField now);
          CalledStore (Some l) (Some e)])) /\
  (forall productID price itemID o2 m2 m3,
      let now := wall_clock env (ticks m2) in
      let items := Order.Items o2 ++ [Item.mk itemID productID price] in
      let o' := Order.mk (Order.ID o2) (Order.CustomerID o2) (Order.Status o2) items
                         (Order.CreatedAt o2) now (Order.DeletedAt o2) in
      Order.Status o = Open ->
      step env repo_NextID m1 = Some ((itemID, None), m2) ->
      heap m2 !! l = Some o2 ->
      step env (repo_Store (Some l)) (touch l o' m2) = Some (Some e, m3) ->
      heap (touch l o' m2) !! l = Some o' /\
      run env (AddItem orderID productID price) m =
        (Done (uuid_Nil, Some e), m3,
         [CalledFind orderID (Some l, None);
          CalledLoad (Some l) o;
          CalledNextID (itemID, None);
          CalledLoad (Some l) o2;
          CalledAssign (Some l) (SetItemsField items);
          CalledNow now;
          CalledAssign (Some l) (SetUpdatedAtField now);
          CalledStore (Some l) (Some e)])) /\
  (forall itemID pre item post m2,
      let now := wall_clock env (ticks m1) in
      let o' := Order.mk (Order.ID o) (Order.CustomerID o) (Order.Status o) (pre ++ post)
                         (Order.CreatedAt o) now (Order.DeletedAt o) in
      Order.Status o = Open ->
      Order.Items o = pre ++ item :: post ->
      Item.ID item = itemID ->
      Forall (fun it => Item.ID it <> itemID) pre ->
      step env (repo_Store (Some l)) (touch l o' m1) = Some (Some e, m2) ->
      heap (touch l o' m1) !! l = Some o' /\
      run env (DeleteItem orderID itemID) m =
        (Done (Some e), m2,
         [CalledFind orderID (Some l, None);
          CalledLoad (Some l) o;
          CalledAssign (Some l) (SetItemsField (pre ++ post));
          CalledNow now;
          CalledAssign (Some l) (SetUpdatedAtField now);
          CalledStore (Some l) (Some e)])).
Proof.
  intros HFind Ho. split; [|split].
  - intros status m2 now o' Hlive HStore. subst now o'.
    split; [apply lookup_insert_eq|].
    unfold SetStatus, touch in *. cbn [step] in *. by exec.
  - intros productID price itemID o2 m2 m3 now items o' Hopen HNextID Ho2 HStore.
    subst now items o'. split; [apply lookup_insert_eq|].
    unfold AddItem, touch in *. cbn [step] in *. by exec.
  - intros itemID pre item post m2 now o' Hopen Hitems Hid Hpre HStore. subst now o'.
    split; [apply lookup_insert_eq|].
    assert (find_item_index (Order.Items o) itemID 0 = Z.of_nat (length pre)) as Hidx.
    { rewrite Hitems. by rewrite find_item_index_leftmost. }
    unfold DeleteItem, touch in *. cbn [step] in *. cbn zeta.
    exec. rewrite Hidx. rewrite decide_False by lia.
    rewrite Hitems, remove_at_middle. by exec.
Qed.

Lemma store_failure_keeps_writes_witness :
  exists m',
    run faulty.store_fails (SetStatus 100%N Paid) scenario.created =
      (Done (Some (ErrOther "store")), m',
       [CalledFind 100%N (Some 1%positive, None);
        CalledLoad (Some 1%positive) (Order.mk 100%N 7%N Open [] 1000 1000 None);
        CalledAssign (Some 1%positive) (SetStatusField Paid);
        CalledNow 1001;
        CalledAssign (Some 1%positive) (SetUpdatedAtField 1001);
        CalledStore (Some 1%positive) (Some (ErrOther "store"))]) /\
    (* the repository of the tests now answers the order as paid *)
    mock.Find 100%N m' = Some ((Some 1%positive, None), m') /\
    heap m' !! 1%positive = Some (Order.mk 100%N 7%N Paid [] 1000 1001 None).
Proof.
  destruct (store_failure_keeps_writes faulty.store_fails scenario.created
              scenario.created 100%N 1%positive
              (Order.mk 100%N 7%N Open [] 1000 1000 None) (ErrOther "store")
              eq_refl eq_refl) as (HSetStatus & _ & _).
  eexists. split.
  - apply HSetStatus; [done | reflexivity].
  - split; reflexivity.
Defined.

(** X6. [SetStatus], [AddItem] and [DeleteItem] read the order the lookup
    answered without a check of the pointer: when the repository answers a
    nil order with a nil error they panic right after the lookup.
    [DeleteOrder] discards the order (order.go 70) and goes on to [Delete]
    and to the dispatch. *)
Theorem nil_order_panics {S} (env : Env S) (m m1 : Mem S) (orderID : UUID) :
  step env (repo_Find orderID) m = Some ((None, None), m1) ->
  (forall status,
      run env (SetStatus orderID status) m
        = (Panic, m1, [CalledFind orderID (None, None)])) /\
  (forall productID price,
      run env (AddItem orderID productID price) m
        = (Panic, m1, [CalledFind orderID (None, None)])) /\
  (forall itemID,
      run env (DeleteItem orderID itemID) m
        = (Panic, m1, [CalledFind orderID (None, None)])) /\
  (forall m2 m3 r,
      step env (repo_Delete orderID) m1 = Some (None, m2) ->
      step env (dispatcher_Dispatch (OrderDeleted orderID)) m2 = Some (r, m3) ->
      run env (DeleteOrder orderID) m =
        (Done r, m3,
         [CalledFind orderID (None, None);
          CalledDelete orderID None;
          CalledDispatch (OrderDeleted orderID) r])).
Proof.
  intros HFind. cbn [step] in HFind. repeat split; intros.
  - unfold SetStatus. by exec.
  - unfold AddItem. by exec.
  - unfold DeleteItem. by exec.
  - by eapply DeleteOrder_run.
Qed.

Lemma nil_order_panics_witness :
  run careless.env (SetStatus 100%N Paid) scenario.created
    = (Panic, scenario.created, [CalledFind 100%N (None, None)]) /\
  fst (fst (run careless.env (DeleteOrder 100%N) scenario.created)) = Done None.
Proof.
  destruct (nil_order_panics careless.env scenario.created scenario.created 100%N
              eq_refl) as (HSetStatus & _ & _ & HDeleteOrder).
  split; [apply HSetStatus|].
  erewrite HDeleteOrder; reflexivity.
Defined.

(** X7. Each operation hands the dispatcher at most one event, of its own
    kind and about its own order, whether the run succeeds or not:
    [CreateOrder] an [OrderCreated] for the customer, [DeleteOrder] the
    [OrderDeleted] of the order, [SetStatus] the [OrderStatusChanged] with
    the status asked for, [AddItem] an [OrderItemsChanged] that adds one item
    and removes none, [DeleteItem] the [OrderItemsChanged] that removes the
    item and adds none.  The tag of the event ([Type()], event.go) tells the
    kind. *)
Theorem events_by_operation {S} (env : Env S) :
  (forall customerID,
      dispatches_only env
        (fun ev => (exists id, ev = OrderCreated id customerID) /\
                   Event_Type ev = "OrderCreated"%string)
        (CreateOrder customerID)) /\
  (forall orderID,
      dispatches_only env
        (fun ev => ev = OrderDeleted orderID /\
                   Event_Type ev = "OrderDeleted"%string)
        (DeleteOrder orderID)) /\
  (forall orderID status,
      dispatches_only env
        (fun ev => ev = OrderStatusChanged orderID status /\
                   Event_Type ev = "OrderStatusChanged"%string)
        (SetStatus orderID status)) /\
  (forall orderID productID price,
      dispatches_only env
        (fun ev => (exists itemID, ev = OrderItemsChanged orderID [itemID] []) /\
                   Event_Type ev = "OrderItemsChanged"%string)
        (AddItem orderID productID price)) /\
  (forall orderID itemID,
      dispatches_only env
        (fun ev => ev = OrderItemsChanged orderID [] [itemID] /\
                   Event_Type ev = "OrderItemsChanged"%string)
        (DeleteItem orderID itemID)).
Proof.
  split; [|split; [|split; [|split]]]; intros; intros m m' out t Hrun.
  - unfold CreateOrder in Hrun. only_events Hrun.
  - unfold DeleteOrder in Hrun. only_events Hrun.
  - unfold SetStatus in Hrun. only_events Hrun.
  - unfold AddItem in Hrun. only_events Hrun.
  - unfold DeleteItem in Hrun. only_events Hrun.
Qed.

Lemma events_by_operation_witness :
  (OrderDeleted 100%N, None)
    ∈ dispatches (snd (run scenario.env (DeleteOrder 100%N) scenario.created)) /\
  (length (dispatches (snd (run scenario.env (DeleteOrder 100%N) scenario.created)))
   <= 1)%nat /\
  Event_Type (OrderDeleted 100%N) = "OrderDeleted"%string.
Proof.
  destruct (events_by_operation scenario.env) as (_ & HDeleteOrder & _).
  pose (r := run scenario.env (DeleteOrder 100%N) scenario.created).
  destruct (HDeleteOrder 100%N scenario.created (snd (fst r)) (fst (fst r)) (snd r)
              eq_refl) as [Hlen Hkind].
  assert ((OrderDeleted 100%N, None : error) ∈ dispatches (snd r)) as Hin by left.
  split; [exact Hin|]. split; [exact Hlen|].
  exact (proj2 (Hkind _ _ Hin)).
Defined.

(** * Further properties, on the repository of the tests *)

(** ** Orders stay stored under their own identifier *)

Lemma wf_insert_heap (h : gmap loc Order.t) (st : gmap UUID ptr) (l : loc)
      (o o' : Order.t) :
  stored_under_own_id h st -> h !! l = Some o -> Order.ID o' = Order.ID o ->
  stored_under_own_id (<[l := o']> h) st.
Proof.
  intros Hwf Ho Hid id p Hp. destruct (Hwf id p Hp) as (l' & o1 & -> & Ho1 & Hid1).
  exists l'. destruct (decide (l = l')) as [<-|Hne].
  - exists o'. rewrite lookup_insert_eq. split; [done|]. split; [done|]. congruence.
  - exists o1. by rewrite lookup_insert_ne.
Qed.

Lemma wf_insert_store (h : gmap loc Order.t) (st : gmap UUID ptr) (l : loc)
      (o : Order.t) :
  stored_under_own_id h st -> h !! l = Some o ->
  stored_under_own_id h (<[Order.ID o := Some l]> st).
Proof.
  intros Hwf Ho id p Hp. rewrite lookup_insert in Hp. case_decide; simplify_eq.
  - by exists l, o.
  - by apply Hwf.
Qed.

Lemma wf_rewritten (h : gmap loc Order.t) (st : gmap UUID ptr) (l : loc)
      (o o' : Order.t) :
  stored_under_own_id h st -> h !! l = Some o -> Order.ID o' = Order.ID o ->
  stored_under_own_id (<[l := o']> h) (<[Order.ID o := Some l]> st).
Proof.
  intros Hwf Ho Hid. rewrite <- Hid.
  apply wf_insert_store; [by eapply wf_insert_heap | apply lookup_insert_eq].
Qed.

Lemma wf_allocated (h : gmap loc Order.t) (st : gmap UUID ptr) (o : Order.t) :
  stored_under_own_id h st ->
  stored_under_own_id (<[fresh (dom h) := o]> h) (<[Order.ID o := Some (fresh (dom h))]> st).
Proof.
  intros Hwf. apply wf_insert_store; [|apply lookup_insert_eq].
  intros id p Hp. destruct (Hwf id p Hp) as (l' & o1 & -> & Ho1 & Hid1).
  exists l', o1. split; [done|]. split; [|done].
  rewrite lookup_insert_ne; [done|]. intros Heq.
  apply (is_fresh (dom h)). rewrite Heq. by apply elem_of_dom.
Qed.

Section WellFormed.
Variable NewV7 : nat -> UUID * error.
Variable clock : nat -> Time.

Lemma CreateOrder_keeps_wf (customerID : UUID) (m m' : Mem mock.State)
      (out : Outcome (UUID * error)) (t : Trace) :
  mock_wf m ->
  run (mock.env NewV7 clock) (CreateOrder customerID) m = (out, m', t) ->
  out <> Panic /\ mock_wf m'.
Proof.
  unfold mock_wf. intros Hwf Hrun. unfold CreateOrder in Hrun. mock_run Hrun.
  destruct (NewV7 (mock.drawn (ext m))) as [orderID [e|]]; mock_cases Hrun; [done|].
  split; [done|].
  exact (wf_allocated _ _ (Order.mk orderID customerID Open [] _ _ None) Hwf).
Qed.

Lemma DeleteOrder_keeps_wf (orderID : UUID) (m m' : Mem mock.State)
      (out : Outcome error) (t : Trace) :
  mock_wf m ->
  run (mock.env NewV7 clock) (DeleteOrder orderID) m = (out, m', t) ->
  out <> Panic /\ mock_wf m'.
Proof.
  unfold mock_wf. intros Hwf Hrun. unfold DeleteOrder in Hrun. mock_run Hrun.
  destruct (mock.store (ext m) !! orderID) as [p|] eqn:Hst; [|by inv_run].
  destruct (Hwf _ _ Hst) as (l & o & -> & Ho & Hid).
  cbn [deref] in Hrun. rewrite Ho in Hrun. mock_cases Hrun; try done.
  split; [done|]. by eapply wf_insert_heap.
Qed.

Lemma SetStatus_keeps_wf (orderID : UUID) (status : OrderStatus)
      (m m' : Mem mock.State) (out : Outcome error) (t : Trace) :
  mock_wf m ->
  run (mock.env NewV7 clock) (SetStatus orderID status) m = (out, m', t) ->
  out <> Panic /\ mock_wf m'.
Proof.
  unfold mock_wf. intros Hwf Hrun. unfold SetStatus in Hrun. mock_run Hrun.
  destruct (mock.store (ext m) !! orderID) as [p|] eqn:Hst; [|by inv_run].
  destruct (Hwf _ _ Hst) as (l & o & -> & Ho & Hid).
  cbn [deref] in Hrun. rewrite Ho in Hrun. mock_cases Hrun; try done.
  split; [done|]. by eapply wf_rewritten.
Qed.

Lemma AddItem_keeps_wf (orderID productID : UUID) (price : float64)
      (m m' : Mem mock.State) (out : Outcome (UUID * error)) (t : Trace) :
  mock_wf m ->
  run (mock.env NewV7 clock) (AddItem orderID productID price) m = (out, m', t) ->
  out <> Panic /\ mock_wf m'.
Proof.
  unfold mock_wf. intros Hwf Hrun. unfold AddItem in Hrun. mock_run Hrun.
  destruct (mock.store (ext m) !! orderID) as [p|] eqn:Hst; [|by inv_run].
  destruct (Hwf _ _ Hst) as (l & o & -> & Ho & Hid).
  cbn [deref] in Hrun. rewrite Ho in Hrun. mock_cases Hrun; try done.
  split; [done|]. by eapply wf_rewritten.
Qed.

Lemma DeleteItem_keeps_wf (orderID itemID : UUID)
      (m m' : Mem mock.State) (out : Outcome error) (t : Trace) :
  mock_wf m ->
  run (mock.env NewV7 clock) (DeleteItem orderID itemID) m = (out, m', t) ->
  out <> Panic /\ mock_wf m'.
Proof.
  unfold mock_wf. intros Hwf Hrun. unfold DeleteItem in Hrun. mock_run Hrun.
  destruct (mock.store (ext m) !! orderID) as [p|] eqn:Hst; [|by inv_run].
  destruct (Hwf _ _ Hst) as (l & o & -> & Ho & Hid).
  cbn [deref] in Hrun. rewrite Ho in Hrun. mock_cases Hrun; try done.
  split; [done|]. by eapply wf_rewritten.
Qed.

End WellFormed.

(** X8. On the repository of the tests, from a memory in which every order
    is stored under its own identifier, no operation of the service panics,
    and every order is still stored under its own identifier afterwards. *)
Theorem service_keeps_store_well_formed (NewV7 : nat -> UUID * error)
        (clock : nat -> Time) (m : Mem mock.State) :
  mock_wf m ->
  (forall customerID out m' t,
      run (mock.env NewV7 clock) (CreateOrder customerID) m = (out, m', t) ->
      out <> Panic /\ mock_wf m') /\
  (forall orderID out m' t,
      run (mock.env NewV7 clock) (DeleteOrder orderID) m = (out, m', t) ->
      out <> Panic /\ mock_wf m') /\
  (forall orderID status out m' t,
      run (mock.env NewV7 clock) (SetStatus orderID status) m = (out, m', t) ->
      out <> Panic /\ mock_wf m') /\
  (forall orderID productID price out m' t,
      run (mock.env NewV7 clock) (AddItem orderID productID price) m = (out, m', t) ->
      out <> Panic /\ mock_wf m') /\
  (forall orderID itemID out m' t,
      run (mock.env NewV7 clock) (DeleteItem orderID itemID) m = (out, m', t) ->
      out <> Panic /\ mock_wf m').
Proof.
  intros Hwf. split; [|split; [|split; [|split]]]; intros.
  - by eapply CreateOrder_keeps_wf.
  - by eapply DeleteOrder_keeps_wf.
  - by eapply SetStatus_keeps_wf.
  - by eapply AddItem_keeps_wf.
  - by eapply DeleteItem_keeps_wf.
Qed.

Lemma service_keeps_store_well_formed_witness :
  mock_wf mock.setup /\
  fst (fst (run scenario.env (CreateOrder 7%N) mock.setup)) <> Panic /\
  mock_wf scenario.created.
Proof.
  assert (mock_wf mock.setup) as Hwf.
  { intros id p Hp. cbn in Hp. by rewrite lookup_empty in Hp. }
  split; [exact Hwf|].
  destruct (service_keeps_store_well_formed scenario.NewV7 scenario.clock
              mock.setup Hwf) as (HCreate & _).
  exact (HCreate 7%N (fst (fst (run scenario.env (CreateOrder 7%N) mock.setup)))
                 scenario.created
                 (snd (run scenario.env (CreateOrder 7%N) mock.setup)) eq_refl).
Defined.

(** ** An operation on one order leaves the others alone *)

Lemma untouched_refl (orderID : UUID) (h : gmap loc Order.t) (st : gmap UUID ptr) :
  untouched_except orderID h st h st.
Proof. by intros id Hne. Qed.

Lemma untouched_heap (orderID : UUID) (h : gmap loc Order.t) (st : gmap UUID ptr)
      (l : loc) (o o' : Order.t) :
  stored_under_own_id h st -> h !! l = Some o -> Order.ID o = orderID ->
  untouched_except orderID h st (<[l := o']> h) st.
Proof.
  intros Hwf Ho Hid id Hne. split; [done|]. intros l' Hl'.
  rewrite lookup_insert_ne; [done|]. intros ->.
  destruct (Hwf _ _ Hl') as (l2 & o2 & ? & Ho2 & Hid2). by simplify_eq.
Qed.

Lemma untouched_rewritten (h : gmap loc Order.t) (st : gmap UUID ptr)
      (l : loc) (o o' : Order.t) :
  stored_under_own_id h st -> h !! l = Some o ->
  untouched_except (Order.ID o) h st (<[l := o']> h) (<[Order.ID o := Some l]> st).
Proof.
  intros Hwf Ho id Hne. split; [by rewrite lookup_insert_ne|].
  by apply (untouched_heap (Order.ID o) h st l o o').
Qed.

Lemma untouched_allocated (orderID : UUID) (h : gmap loc Order.t)
      (st : gmap UUID ptr) (o : Order.t) :
  stored_under_own_id h st ->
  untouched_except orderID h st (<[fresh (dom h) := o]> h)
                   (<[orderID := Some (fresh (dom h))]> st).
Proof.
  intros Hwf id Hne. split; [by rewrite lookup_insert_ne|]. intros l' Hl'.
  destruct (Hwf _ _ Hl') as (l2 & o2 & ? & Ho2 & Hid2). simplify_eq.
  rewrite lookup_insert_ne; [done|]. intros Heq.
  apply (is_fresh (dom h)). rewrite Heq. by apply elem_of_dom.
Qed.

Section Frame.
Variable NewV7 : nat -> UUID * error.
Variable clock : nat -> Time.

Lemma CreateOrder_frame (customerID : UUID) (m m' : Mem mock.State)
      (out : Outcome (UUID * error)) (t : Trace) :
  mock_wf m ->
  run (mock.env NewV7 clock) (CreateOrder customerID) m = (out, m', t) ->
  others_untouched (fst (NewV7 (mock.drawn (ext m)))) m m'.
Proof.
  unfold mock_wf, others_untouched. intros Hwf Hrun.
  unfold CreateOrder in Hrun. mock_run Hrun.
  destruct (NewV7 (mock.drawn (ext m))) as [orderID [e|]]; mock_cases Hrun;
    [apply untouched_refl|].
  by apply untouched_allocated.
Qed.

Lemma DeleteOrder_frame (orderID : UUID) (m m' : Mem mock.State)
      (out : Outcome error) (t : Trace) :
  mock_wf m ->
  run (mock.env NewV7 clock) (DeleteOrder orderID) m = (out, m', t) ->
  others_untouched orderID m m'.
Proof.
  unfold mock_wf, others_untouched. intros Hwf Hrun.
  unfold DeleteOrder in Hrun. mock_run Hrun.
  destruct (mock.store (ext m) !! orderID) as [p|] eqn:Hst;
    [|inv_run; apply untouched_refl].
  destruct (Hwf _ _ Hst) as (l & o & -> & Ho & Hid).
  cbn [deref] in Hrun. rewrite Ho in Hrun.
  mock_cases Hrun; try apply untouched_refl; try done.
  by eapply untouched_heap.
Qed.

Lemma SetStatus_frame (orderID : UUID) (status : OrderStatus)
      (m m' : Mem mock.State) (out : Outcome error) (t : Trace) :
  mock_wf m ->
  run (mock.env NewV7 clock) (SetStatus orderID status) m = (out, m', t) ->
  others_untouched orderID m m'.
Proof.
  unfold mock_wf, others_untouched. intros Hwf Hrun.
  unfold SetStatus in Hrun. mock_run Hrun.
  destruct (mock.store (ext m) !! orderID) as [p|] eqn:Hst;
    [|inv_run; apply untouched_refl].
  destruct (Hwf _ _ Hst) as (l & o & -> & Ho & Hid).
  cbn [deref] in Hrun. rewrite Ho in Hrun.
  mock_cases Hrun; try apply untouched_refl; try done.
  by eapply untouched_rewritten.
Qed.

Lemma AddItem_frame (orderID productID : UUID) (price : float64)
      (m m' : Mem mock.State) (out : Outcome (UUID * error)) (t : Trace) :
  mock_wf m ->
  run (mock.env NewV7 clock) (AddItem orderID productID price) m = (out, m', t) ->
  others_untouched orderID m m'.
Proof.
  unfold mock_wf, others_untouched. intros Hwf Hrun.
  unfold AddItem in Hrun. mock_run Hrun.
  destruct (mock.store (ext m) !! orderID) as [p|] eqn:Hst;
    [|inv_run; apply untouched_refl].
  destruct (Hwf _ _ Hst) as (l & o & -> & Ho & Hid).
  cbn [deref] in Hrun. rewrite Ho in Hrun.
  mock_cases Hrun; try apply untouched_refl; try done.
  by eapply untouched_rewritten.
Qed.

Lemma DeleteItem_frame (orderID itemID : UUID)
      (m m' : Mem mock.State) (out : Outcome error) (t : Trace) :
  mock_wf m ->
  run (mock.env NewV7 clock) (DeleteItem orderID itemID) m = (out, m', t) ->
  others_untouched orderID m m'.
Proof.
  unfold mock_wf, others_untouched. intros Hwf Hrun.
  unfold DeleteItem in Hrun. mock_run Hrun.
  destruct (mock.store (ext m) !! orderID) as [p|] eqn:Hst;
    [|inv_run; apply untouched_refl].
  destruct (Hwf _ _ Hst) as (l & o & -> & Ho & Hid).
  cbn [deref] in Hrun. rewrite Ho in Hrun.
  mock_cases Hrun; try apply untouched_refl; try done.
  by eapply untouched_rewritten.
Qed.

End Frame.

Lemma mock_wf_setup : mock_wf mock.setup.
Proof. intros id p Hp. cbn in Hp. by rewrite lookup_empty in Hp. Qed.

Lemma mock_wf_created : mock_wf scenario.created.
Proof.
  refine (proj2 (CreateOrder_keeps_wf scenario.NewV7 scenario.clock 7%N mock.setup
                   scenario.created _ _ mock_wf_setup eq_refl)).
Qed.

Lemma mock_wf_two_orders : mock_wf two_orders.mem.
Proof.
  refine (proj2 (CreateOrder_keeps_wf scenario.NewV7 scenario.clock 8%N
                   scenario.created two_orders.mem _ _ mock_wf_created eq_refl)).
Qed.

(** X9. On the repository of the tests, from a memory in which every order
    is stored under its own identifier, an operation on the order [orderID]
    changes neither the store entry nor the record of any order stored under
    another identifier; [CreateOrder] leaves alone every order but one stored
    under the identifier it was allocated. *)
Theorem operations_leave_other_orders_alone (NewV7 : nat -> UUID * error)
        (clock : nat -> Time) (m : Mem mock.State) :
  mock_wf m ->
  (forall customerID out m' t,
      run (mock.env NewV7 clock) (CreateOrder customerID) m = (out, m', t) ->
      others_untouched (fst (NewV7 (mock.drawn (ext m)))) m m') /\
  (forall orderID out m' t,
      run (mock.env NewV7 clock) (DeleteOrder orderID) m = (out, m', t) ->
      others_untouched orderID m m') /\
  (forall orderID status out m' t,
      run (mock.env NewV7 clock) (SetStatus orderID status) m = (out, m', t) ->
      others_untouched orderID m m') /\
  (forall orderID productID price out m' t,
      run (mock.env NewV7 clock) (AddItem orderID productID price) m = (out, m', t) ->
      others_untouched orderID m m') /\
  (forall orderID itemID out m' t,
      run (mock.env NewV7 clock) (DeleteItem orderID itemID) m = (out, m', t) ->
      others_untouched orderID m m').
Proof.
  intros Hwf. split; [|split; [|split; [|split]]]; intros.
  - by eapply CreateOrder_frame.
  - by eapply DeleteOrder_frame.
  - by eapply SetStatus_frame.
  - by eapply AddItem_frame.
  - by eapply DeleteItem_frame.
Qed.

Lemma operations_leave_other_orders_alone_witness :
  mock_wf two_orders.mem /\
  fst (fst (run scenario.env (DeleteOrder 101%N) two_orders.mem)) = Done None /\
  mock.store (ext (snd (fst (run scenario.env (DeleteOrder 101%N) two_orders.mem))))
    !! 100%N = Some (Some 1%positive) /\
  heap (snd (fst (run scenario.env (DeleteOrder 101%N) two_orders.mem))) !! 1%positive
    = Some (Order.mk 100%N 7%N Open [] 1000 1000 None).
Proof.
  split; [exact mock_wf_two_orders|]. split; [reflexivity|].
  destruct (operations_leave_other_orders_alone scenario.NewV7 scenario.clock
              two_orders.mem mock_wf_two_orders) as (_ & HDeleteOrder & _).
  pose (r := run scenario.env (DeleteOrder 101%N) two_orders.mem).
  destruct (HDeleteOrder 101%N (fst (fst r)) (snd (fst r)) (snd r) eq_refl 100%N)
    as [Hst Hheap]; [done|].
  split.
  - exact (eq_trans Hst eq_refl).
  - exact (eq_trans (Hheap 1%positive eq_refl) eq_refl).
Defined.

(** ** A deleted order stays out of reach *)

Section Gone.
Variable NewV7 : nat -> UUID * error.
Variable clock : nat -> Time.

Lemma DeleteOrder_gone (m : Mem mock.State) (orderID : UUID) :
  gone m orderID ->
  run (mock.env NewV7 clock) (DeleteOrder orderID) m =
    (Done (Some ErrOrderNotFound), m,
     [CalledFind orderID (None, Some ErrOrderNotFound)]).
Proof.
  intros Hgone. unfold DeleteOrder. cbn [run step mock.env on_Find].
  by rewrite mock_Find_gone.
Qed.

Lemma SetStatus_gone (m : Mem mock.State) (orderID : UUID) (status : OrderStatus) :
  gone m orderID ->
  run (mock.env NewV7 clock) (SetStatus orderID status) m =
    (Done (Some ErrOrderNotFound), m,
     [CalledFind orderID (None, Some ErrOrderNotFound)]).
Proof.
  intros Hgone. unfold SetStatus. cbn [run step mock.env on_Find].
  by rewrite mock_Find_gone.
Qed.

Lemma AddItem_gone (m : Mem mock.State) (orderID productID : UUID) (price : float64) :
  gone m orderID ->
  run (mock.env NewV7 clock) (AddItem orderID productID price) m =
    (Done (uuid_Nil, Some ErrOrderNotFound), m,
     [CalledFind orderID (None, Some ErrOrderNotFound)]).
Proof.
  intros Hgone. unfold AddItem. cbn [run step mock.env on_Find].
  by rewrite mock_Find_gone.
Qed.

Lemma DeleteItem_gone (m : Mem mock.State) (orderID itemID : UUID) :
  gone m orderID ->
  run (mock.env NewV7 clock) (DeleteItem orderID itemID) m =
    (Done (Some ErrOrderNotFound), m,
     [CalledFind orderID (None, Some ErrOrderNotFound)]).
Proof.
  intros Hgone. unfold DeleteItem. cbn [run step mock.env on_Find].
  by rewrite mock_Find_gone.
Qed.

Lemma gone_untouched (m m' : Mem mock.State) (orderID id : UUID) :
  others_untouched orderID m m' -> id <> orderID -> gone m id -> gone m' id.
Proof.
  intros Hframe Hne Hgone. destruct (Hframe id Hne) as [Hst Hheap].
  destruct Hgone as [Hnone | (l & o & Hl & Ho & Hdel)].
  - left. by rewrite Hst.
  - right. exists l, o. split; [by rewrite Hst|]. split; [|done].
    by rewrite (Hheap l Hl).
Qed.

End Gone.

(** X10. On the repository of the tests, an order that is absent or
    soft-deleted is out of reach of the service: [SetStatus], [AddItem] and
    [DeleteItem] on its identifier return [ErrOrderNotFound] after the lookup
    alone, and the memory is unchanged. *)
Theorem deleted_order_rejects_changes (NewV7 : nat -> UUID * error)
        (clock : nat -> Time) (m : Mem mock.State) (orderID : UUID) :
  gone m orderID ->
  (forall status,
      run (mock.env NewV7 clock) (SetStatus orderID status) m =
        (Done (Some ErrOrderNotFound), m,
         [CalledFind orderID (None, Some ErrOrderNotFound)])) /\
  (forall productID price,
      run (mock.env NewV7 clock) (AddItem orderID productID price) m =
        (Done (uuid_Nil, Some ErrOrderNotFound), m,
         [CalledFind orderID (None, Some ErrOrderNotFound)])) /\
  (forall itemID,
      run (mock.env NewV7 clock) (DeleteItem orderID itemID) m =
        (Done (Some ErrOrderNotFound), m,
         [CalledFind orderID (None, Some ErrOrderNotFound)])).
Proof.
  intros Hgone. split; [|split]; intros.
  - by apply SetStatus_gone.
  - by apply AddItem_gone.
  - by apply DeleteItem_gone.
Qed.

Lemma deleted_order_rejects_changes_witness :
  gone tombstone.mem 100%N /\
  run scenario.env (SetStatus 100%N Paid) tombstone.mem =
    (Done (Some ErrOrderNotFound), tombstone.mem,
     [CalledFind 100%N (None, Some ErrOrderNotFound)]).
Proof.
  pose (deleted := tombstone.mem).
  assert (gone deleted 100%N) as Hgone.
  { right. exists 1%positive, (Order.mk 100%N 7%N Open [] 1000 1000 (Some 1001)).
    split; [reflexivity|]. split; [reflexivity | done]. }
  split; [exact Hgone|].
  exact (proj1 (deleted_order_rejects_changes scenario.NewV7 scenario.clock
                  deleted 100%N Hgone) Paid).
Defined.

(** X11. On the repository of the tests, from a memory in which every order
    is stored under its own identifier, an order that is absent or
    soft-deleted stays so through every operation of the service, on this or
    on any other order; only a [CreateOrder] that is allocated this very
    identifier can bring it back. *)
Theorem deleted_order_stays_deleted (NewV7 : nat -> UUID * error)
        (clock : nat -> Time) (m : Mem mock.State) (id : UUID) :
  mock_wf m ->
  gone m id ->
  (forall customerID out m' t,
      fst (NewV7 (mock.drawn (ext m))) <> id ->
      run (mock.env NewV7 clock) (CreateOrder customerID) m = (out, m', t) ->
      gone m' id) /\
  (forall orderID out m' t,
      run (mock.env NewV7 clock) (DeleteOrder orderID) m = (out, m', t) ->
      gone m' id) /\
  (forall orderID status out m' t,
      run (mock.env NewV7 clock) (SetStatus orderID status) m = (out, m', t) ->
      gone m' id) /\
  (forall orderID productID price out m' t,
      run (mock.env NewV7 clock) (AddItem orderID productID price) m = (out, m', t) ->
      gone m' id) /\
  (forall orderID itemID out m' t,
      run (mock.env NewV7 clock) (DeleteItem orderID itemID) m = (out, m', t) ->
      gone m' id).
Proof.
  intros Hwf Hgone. split; [|split; [|split; [|split]]].
  - intros customerID out m' t Hne Hrun.
    eapply gone_untouched; [by eapply CreateOrder_frame | done | done].
  - intros orderID out m' t Hrun. destruct (decide (id = orderID)) as [->|Hne].
    + rewrite DeleteOrder_gone in Hrun by done. by simplify_eq.
    + eapply gone_untouched; [by eapply DeleteOrder_frame | done | done].
  - intros orderID status out m' t Hrun. destruct (decide (id = orderID)) as [->|Hne].
    + rewrite SetStatus_gone in Hrun by done. by simplify_eq.
    + eapply gone_untouched; [by eapply SetStatus_frame | done | done].
  - intros orderID productID price out m' t Hrun.
    destruct (decide (id = orderID)) as [->|Hne].
    + rewrite AddItem_gone in Hrun by done. by simplify_eq.
    + eapply gone_untouched; [by eapply AddItem_frame | done | done].
  - intros orderID itemID out m' t Hrun. destruct (decide (id = orderID)) as [->|Hne].
    + rewrite DeleteItem_gone in Hrun by done. by simplify_eq.
    + eapply gone_untouched; [by eapply DeleteItem_frame | done | done].
Qed.

Lemma deleted_order_stays_deleted_witness :
  mock_wf two_orders.first_deleted /\
  gone two_orders.first_deleted 100%N /\
  fst (fst (run scenario.env (SetStatus 101%N Paid) two_orders.first_deleted))
    = Done None /\
  gone (snd (fst (run scenario.env (SetStatus 101%N Paid) two_orders.first_deleted)))
       100%N.
Proof.
  pose (deleted := two_orders.first_deleted).
  assert (mock_wf deleted) as Hwf.
  { refine (proj2 (DeleteOrder_keeps_wf scenario.NewV7 scenario.clock 100%N
                     two_orders.mem deleted _ _ mock_wf_two_orders eq_refl)). }
  assert (gone deleted 100%N) as Hgone.
  { right. exists 1%positive, (Order.mk 100%N 7%N Open [] 1000 1000 (Some 1002)).
    split; [reflexivity|]. split; [reflexivity | done]. }
  split; [exact Hwf|]. split; [exact Hgone|]. split; [reflexivity|].
  destruct (deleted_order_stays_deleted scenario.NewV7 scenario.clock deleted 100%N
              Hwf Hgone) as (_ & _ & HSetStatus & _).
  pose (r := run scenario.env (SetStatus 101%N Paid) deleted).
  exact (HSetStatus 101%N Paid (fst (fst r)) (snd (fst r)) (snd r) eq_refl).
Defined.

(** ** Successful runs on the repository of the tests *)

Lemma store_again (st : gmap UUID ptr) (key id : UUID) (p : ptr) :
  st !! id = Some p -> <[key := p]> st !! id = Some p.
Proof.
  intros Hid. rewrite lookup_insert. by case_decide.
Qed.

Section MockRuns.
Variable NewV7 : nat -> UUID * error.
Variable clock : nat -> Time.

Lemma mock_SetStatus_live (m : Mem mock.State) (orderID : UUID)
      (status : OrderStatus) (l : loc) (o : Order.t) :
  let now := clock (ticks m) in
  let o' := Order.mk (Order.ID o) (Order.CustomerID o) status (Order.Items o)
                     (Order.CreatedAt o) now (Order.DeletedAt o) in
  live m orderID l o ->
  Order.Status o <> Cancelled ->
  run (mock.env NewV7 clock) (SetStatus orderID status) m =
    (Done None,
     committed m l (Order.ID o) o' (OrderStatusChanged orderID status),
     [CalledFind orderID (Some l, None);
      CalledLoad (Some l) o;
      CalledAssign (Some l) (SetStatusField status);
      CalledNow now;
      CalledAssign (Some l) (SetUpdatedAtField now);
      CalledStore (Some l) None;
      CalledDispatch (OrderStatusChanged orderID status) None]).
Proof.
  intros now o' Hlive Hstatus. pose proof Hlive as (Hst & Ho & Hdel).
  eapply SetStatus_run; cbn [step mock.env on_Find on_Store on_Dispatch wall_clock].
  - by eapply mock_Find_live.
  - done.
  - done.
  - unfold mock.Store, touch. cbn [deref heap]. rewrite lookup_insert_eq. reflexivity.
  - reflexivity.
Qed.

Lemma mock_AddItem_live (m : Mem mock.State) (orderID productID itemID : UUID)
      (price : float64) (l : loc) (o : Order.t) :
  let now := clock (ticks m) in
  let o' := Order.mk (Order.ID o) (Order.CustomerID o) (Order.Status o)
                     (Order.Items o ++ [Item.mk itemID productID price])
                     (Order.CreatedAt o) now (Order.DeletedAt o) in
  live m orderID l o ->
  Order.Status o = Open ->
  NewV7 (mock.drawn (ext m)) = (itemID, None) ->
  run (mock.env NewV7 clock) (AddItem orderID productID price) m =
    (Done (itemID, None),
     committed_with_id m l (Order.ID o) o' (OrderItemsChanged orderID [itemID] []),
     [CalledFind orderID (Some l, None);
      CalledLoad (Some l) o;
      CalledNextID (itemID, None);
      CalledLoad (Some l) o;
      CalledAssign (Some l)
        (SetItemsField (Order.Items o ++ [Item.mk itemID productID price]));
      CalledNow now;
      CalledAssign (Some l) (SetUpdatedAtField now);
      CalledStore (Some l) None;
      CalledDispatch (OrderItemsChanged orderID [itemID] []) None]).
Proof.
  intros now o' Hlive Hopen Hid. pose proof Hlive as (Hst & Ho & Hdel).
  eapply (AddItem_run (mock.env NewV7 clock) m m
            (mkMem (heap m) (ticks m)
                   (mock.mkState (mock.store (ext m)) (mock.events (ext m))
                                 (Datatypes.S (mock.drawn (ext m)))))
            _ _ orderID productID itemID price l o o);
    cbn [step mock.env on_Find on_Store on_Dispatch on_NextID wall_clock].
  - by eapply mock_Find_live.
  - done.
  - done.
  - unfold mock.NextID. rewrite Hid. reflexivity.
  - done.
  - unfold mock.Store, touch. cbn [deref heap]. rewrite lookup_insert_eq. reflexivity.
  - reflexivity.
Qed.

Lemma mock_DeleteItem_live (m : Mem mock.State) (orderID itemID : UUID)
      (l : loc) (o : Order.t) (pre post : list Item.t) (item : Item.t) :
  let now := clock (ticks m) in
  let o' := Order.mk (Order.ID o) (Order.CustomerID o) (Order.Status o) (pre ++ post)
                     (Order.CreatedAt o) now (Order.DeletedAt o) in
  live m orderID l o ->
  Order.Status o = Open ->
  Order.Items o = pre ++ item :: post ->
  Item.ID item = itemID ->
  Forall (fun it => Item.ID it <> itemID) pre ->
  run (mock.env NewV7 clock) (DeleteItem orderID itemID) m =
    (Done None,
     committed m l (Order.ID o) o' (OrderItemsChanged orderID [] [itemID]),
     [CalledFind orderID (Some l, None);
      CalledLoad (Some l) o;
      CalledAssign (Some l) (SetItemsField (pre ++ post));
      CalledNow now;
      CalledAssign (Some l) (SetUpdatedAtField now);
      CalledStore (Some l) None;
      CalledDispatch (OrderItemsChanged orderID [] [itemID]) None]).
Proof.
  intros now o' Hlive Hopen Hitems Hitem Hpre. pose proof Hlive as (Hst & Ho & Hdel).
  eapply DeleteItem_run; cbn [step mock.env on_Find on_Store on_Dispatch wall_clock];
    try done.
  - by eapply mock_Find_live.
  - unfold mock.Store, touch. cbn [deref heap]. rewrite lookup_insert_eq. reflexivity.
  - reflexivity.
Qed.

(** After a commit the order is still live, under the same identifier. *)
Lemma committed_live (m : Mem mock.State) (orderID key : UUID) (l : loc)
      (o o' : Order.t) (ev : Event) :
  live m orderID l o -> Order.DeletedAt o' = None ->
  live (committed m l key o' ev) orderID l o'.
Proof.
  intros (Hst & Ho & Hdel) Hdel'. split; [by apply store_again|].
  split; [apply lookup_insert_eq | done].
Qed.

Lemma committed_with_id_live (m : Mem mock.State) (orderID key : UUID) (l : loc)
      (o o' : Order.t) (ev : Event) :
  live m orderID l o -> Order.DeletedAt o' = None ->
  live (committed_with_id m l key o' ev) orderID l o'.
Proof.
  intros (Hst & Ho & Hdel) Hdel'. split; [by apply store_again|].
  split; [apply lookup_insert_eq | done].
Qed.

End MockRuns.

Lemma DeleteItem_not_open {S} (env : Env S) (m m1 : Mem S)
      (orderID itemID : UUID) (l : loc) (o : Order.t) :
  step env (repo_Find orderID) m = Some ((Some l, None), m1) ->
  heap m1 !! l = Some o ->
  Order.Status o <> Open ->
  run env (DeleteItem orderID itemID) m =
    (Done (Some ErrInvalidOrderStatus), m1,
     [CalledFind orderID (Some l, None); CalledLoad (Some l) o]).
Proof.
  intros HFind Ho Hclosed. unfold DeleteItem. cbn [step] in *. by exec.
Qed.

(** ** How the operations compose *)

(** X12. On the repository of the tests, after [SetStatus] has succeeded the
    order is stored, live, with the status asked for, and that status alone
    decides what may follow: from [Cancelled] every further [SetStatus] is
    refused; from any other status a [SetStatus] to any status goes through
    (there is no other restriction on transitions); and unless the status is
    [Open], [AddItem] and [DeleteItem] are refused.  A refused operation
    leaves the memory as it is. *)
Theorem status_decides_what_follows (NewV7 : nat -> UUID * error)
        (clock : nat -> Time) (m : Mem mock.State) (orderID : UUID)
        (status : OrderStatus) (l : loc) (o : Order.t) :
  let o' := Order.mk (Order.ID o) (Order.CustomerID o) status (Order.Items o)
                     (Order.CreatedAt o) (clock (ticks m)) (Order.DeletedAt o) in
  let m' := committed m l (Order.ID o) o' (OrderStatusChanged orderID status) in
  live m orderID l o ->
  Order.Status o <> Cancelled ->
  fst (run (mock.env NewV7 clock) (SetStatus orderID status) m) = (Done None, m') /\
  live m' orderID l o' /\
  (status = Cancelled ->
   forall status2,
     run (mock.env NewV7 clock) (SetStatus orderID status2) m' =
       (Done (Some ErrInvalidOrderStatus), m',
        [CalledFind orderID (Some l, None); CalledLoad (Some l) o'])) /\
  (status <> Cancelled ->
   forall status2,
     fst (fst (run (mock.env NewV7 clock) (SetStatus orderID status2) m'))
       = Done None) /\
  (status <> Open ->
   (forall productID price,
       run (mock.env NewV7 clock) (AddItem orderID productID price) m' =
         (Done (uuid_Nil, Some ErrInvalidOrderStatus), m',
          [CalledFind orderID (Some l, None); CalledLoad (Some l) o'])) /\
   (forall itemID,
       run (mock.env NewV7 clock) (DeleteItem orderID itemID) m' =
         (Done (Some ErrInvalidOrderStatus), m',
          [CalledFind orderID (Some l, None); CalledLoad (Some l) o']))).
Proof.
  intros o' m' Hlive Hstatus.
  assert (live m' orderID l o') as Hlive'.
  { apply (committed_live m orderID _ l o); [done|]. by destruct Hlive as (_ & _ & ?). }
  pose proof Hlive' as (_ & Ho' & _).
  assert (step (mock.env NewV7 clock) (repo_Find orderID) m'
          = Some ((Some l, None), m')) as HFind by (by eapply mock_Find_live).
  split; [by rewrite (mock_SetStatus_live NewV7 clock m orderID status l o)|].
  split; [done|].
  split; [|split].
  - intros -> status2. by eapply SetStatus_cancelled.
  - intros Hlive2 status2.
    by rewrite (mock_SetStatus_live NewV7 clock m' orderID status2 l o').
  - intros Hclosed. split; intros.
    + by eapply AddItem_not_open.
    + by eapply DeleteItem_not_open.
Qed.

Lemma status_decides_what_follows_witness :
  live scenario.created 100%N 1%positive (Order.mk 100%N 7%N Open [] 1000 1000 None) /\
  fst (fst (run scenario.env (SetStatus 100%N Shipped) scenario.created)) = Done None /\
  fst (fst (run scenario.env (AddItem 100%N 55%N 10) (scenario.with_status Shipped)))
    = Done (uuid_Nil, Some ErrInvalidOrderStatus) /\
  fst (fst (run scenario.env (SetStatus 100%N Open) (scenario.with_status Shipped)))
    = Done None.
Proof.
  assert (live scenario.created 100%N 1%positive
               (Order.mk 100%N 7%N Open [] 1000 1000 None)) as Hlive
    by (split; [reflexivity | split; reflexivity]).
  split; [exact Hlive|].
  destruct (status_decides_what_follows scenario.NewV7 scenario.clock scenario.created
              100%N Shipped 1%positive (Order.mk 100%N 7%N Open [] 1000 1000 None)
              Hlive ltac:(done)) as (Hrun & _ & _ & Hleave & Hitems).
  split; [exact (f_equal fst Hrun)|]. split.
  - exact (f_equal (fun r => fst (fst r)) (proj1 (Hitems ltac:(done)) 55%N 10)).
  - exact (Hleave ltac:(done) Open).
Defined.

(** X13. On the repository of the tests, [AddItem] followed by [DeleteItem]
    of the identifier it returned gives the order its former items back,
    provided no item of the order carried that identifier: both operations
    succeed, only [UpdatedAt] differs in the record, and the two events
    recorded are the addition and the removal of the item. *)
Theorem AddItem_then_DeleteItem (NewV7 : nat -> UUID * error) (clock : nat -> Time)
        (m : Mem mock.State) (orderID productID itemID : UUID) (price : float64)
        (l : loc) (o : Order.t) :
  live m orderID l o ->
  Order.Status o = Open ->
  NewV7 (mock.drawn (ext m)) = (itemID, None) ->
  Forall (fun it => Item.ID it <> itemID) (Order.Items o) ->
  exists m1 m2,
    fst (run (mock.env NewV7 clock) (AddItem orderID productID price) m)
      = (Done (itemID, None), m1) /\
    fst (run (mock.env NewV7 clock) (DeleteItem orderID itemID) m1)
      = (Done None, m2) /\
    heap m2 !! l
      = Some (Order.mk (Order.ID o) (Order.CustomerID o) (Order.Status o)
                       (Order.Items o) (Order.CreatedAt o)
                       (clock (Datatypes.S (ticks m))) (Order.DeletedAt o)) /\
    mock.GetEvents m2
      = mock.GetEvents m ++ [OrderItemsChanged orderID [itemID] [];
                             OrderItemsChanged orderID [] [itemID]].
Proof.
  intros Hlive Hopen Hid Hfresh. pose proof Hlive as (_ & _ & Hdel).
  set (new := Item.mk itemID productID price).
  set (o1 := Order.mk (Order.ID o) (Order.CustomerID o) (Order.Status o)
                      (Order.Items o ++ [new]) (Order.CreatedAt o)
                      (clock (ticks m)) (Order.DeletedAt o)).
  set (m1 := committed_with_id m l (Order.ID o) o1 (OrderItemsChanged orderID [itemID] [])).
  assert (live m1 orderID l o1) as Hlive1
    by (by apply (committed_with_id_live m orderID _ l o)).
  eexists m1, _. split.
  { by rewrite (mock_AddItem_live NewV7 clock m orderID productID itemID price l o). }
  split.
  { by rewrite (mock_DeleteItem_live NewV7 clock m1 orderID itemID l o1
                  (Order.Items o) [] new). }
  split.
  - cbn [heap committed]. rewrite lookup_insert_eq. cbn. by rewrite app_nil_r.
  - unfold mock.GetEvents. cbn. by rewrite <- app_assoc.
Qed.

Lemma AddItem_then_DeleteItem_witness :
  scenario.NewV7 (mock.drawn (ext scenario.created)) = (101%N, None) /\
  (exists m1 m2,
      fst (run scenario.env (AddItem 100%N 55%N 10) scenario.created)
        = (Done (101%N, None), m1) /\
      fst (run scenario.env (DeleteItem 100%N 101%N) m1) = (Done None, m2) /\
      heap m2 !! 1%positive = Some (Order.mk 100%N 7%N Open [] 1000 1002 None) /\
      mock.GetEvents m2
        = [OrderCreated 100%N 7%N; OrderItemsChanged 100%N [101%N] [];
           OrderItemsChanged 100%N [] [101%N]]).
Proof.
  split; [reflexivity|].
  exact (AddItem_then_DeleteItem scenario.NewV7 scenario.clock scenario.created
           100%N 55%N 101%N 10 1%positive (Order.mk 100%N 7%N Open [] 1000 1000 None)
           (conj eq_refl (conj eq_refl eq_refl)) eq_refl eq_refl (Forall_nil_2 _)).
Defined.

(** X14. When the identifier [AddItem] is allocated is already carried by an
    item of the order, a [DeleteItem] of that identifier afterwards takes out
    the older item, not the one just added: the items end as the former ones
    without their leftmost item of that identifier, followed by the new
    item. *)
Theorem reused_item_id_removes_older_item (NewV7 : nat -> UUID * error)
        (clock : nat -> Time) (m : Mem mock.State)
        (orderID productID itemID : UUID) (price : float64) (l : loc) (o : Order.t)
        (pre post : list Item.t) (old : Item.t) :
  live m orderID l o ->
  Order.Status o = Open ->
  NewV7 (mock.drawn (ext m)) = (itemID, None) ->
  Order.Items o = pre ++ old :: post ->
  Item.ID old = itemID ->
  Forall (fun it => Item.ID it <> itemID) pre ->
  exists m1 m2,
    fst (run (mock.env NewV7 clock) (AddItem orderID productID price) m)
      = (Done (itemID, None), m1) /\
    fst (run (mock.env NewV7 clock) (DeleteItem orderID itemID) m1)
      = (Done None, m2) /\
    heap m2 !! l
      = Some (Order.mk (Order.ID o) (Order.CustomerID o) (Order.Status o)
                       (pre ++ post ++ [Item.mk itemID productID price])
                       (Order.CreatedAt o)
                       (clock (Datatypes.S (ticks m))) (Order.DeletedAt o)).
Proof.
  intros Hlive Hopen Hid Hitems Hold Hpre. pose proof Hlive as (_ & _ & Hdel).
  set (new := Item.mk itemID productID price).
  set (o1 := Order.mk (Order.ID o) (Order.CustomerID o) (Order.Status o)
                      (Order.Items o ++ [new]) (Order.CreatedAt o)
                      (clock (ticks m)) (Order.DeletedAt o)).
  set (m1 := committed_with_id m l (Order.ID o) o1 (OrderItemsChanged orderID [itemID] [])).
  assert (live m1 orderID l o1) as Hlive1
    by (by apply (committed_with_id_live m orderID _ l o)).
  eexists m1, _. split.
  { by rewrite (mock_AddItem_live NewV7 clock m orderID productID itemID price l o). }
  split.
  { rewrite (mock_DeleteItem_live NewV7 clock m1 orderID itemID l o1
               pre (post ++ [new]) old); try done.
    cbn [Order.Items o1]. by rewrite Hitems, <- app_assoc. }
  cbn [heap committed]. by rewrite lookup_insert_eq.
Qed.

Lemma reused_item_id_removes_older_item_witness :
  exists m1 m2,
    fst (run (mock.env (fun _ => (101%N, None)) scenario.clock)
             (AddItem 100%N 59%N 50) duplicates.mem)
      = (Done (101%N, None), m1) /\
    fst (run (mock.env (fun _ => (101%N, None)) scenario.clock)
             (DeleteItem 100%N 101%N) m1)
      = (Done None, m2) /\
    heap m2 !! 1%positive
      = Some (Order.mk 100%N 7%N Open
                [Item.mk 102%N 56%N 20; Item.mk 103%N 57%N 30;
                 Item.mk 101%N 58%N 40; Item.mk 101%N 59%N 50]
                1000 1006 None).
Proof.
  refine (reused_item_id_removes_older_item (fun _ => (101%N, None)) scenario.clock
            duplicates.mem 100%N 59%N 101%N 50 1%positive duplicates.order
            [Item.mk 102%N 56%N 20]
            [Item.mk 103%N 57%N 30; Item.mk 101%N 58%N 40]
            (Item.mk 101%N 55%N 10)
            (conj eq_refl (conj eq_refl eq_refl)) eq_refl eq_refl eq_refl eq_refl _).
  by repeat constructor.
Defined.

(** X15. [DeleteItem] does not succeed twice on an identifier that one item
    carried: on the repository of the tests, after it has removed that item
    a second [DeleteItem] of the identifier returns [ErrItemNotFound] and
    leaves the memory as the first one left it. *)
Theorem DeleteItem_twice (NewV7 : nat -> UUID * error) (clock : nat -> Time)
        (m : Mem mock.State) (orderID itemID : UUID) (l : loc) (o : Order.t)
        (pre post : list Item.t) (item : Item.t) :
  let o' := Order.mk (Order.ID o) (Order.CustomerID o) (Order.Status o) (pre ++ post)
                     (Order.CreatedAt o) (clock (ticks m)) (Order.DeletedAt o) in
  let m' := committed m l (Order.ID o) o' (OrderItemsChanged orderID [] [itemID]) in
  live m orderID l o ->
  Order.Status o = Open ->
  Order.Items o = pre ++ item :: post ->
  Item.ID item = itemID ->
  Forall (fun it => Item.ID it <> itemID) pre ->
  Forall (fun it => Item.ID it <> itemID) post ->
  fst (run (mock.env NewV7 clock) (DeleteItem orderID itemID) m) = (Done None, m') /\
  run (mock.env NewV7 clock) (DeleteItem orderID itemID) m' =
    (Done (Some ErrItemNotFound), m',
     [CalledFind orderID (Some l, None); CalledLoad (Some l) o']).
Proof.
  intros o' m' Hlive Hopen Hitems Hid Hpre Hpost. pose proof Hlive as (_ & _ & Hdel).
  assert (live m' orderID l o') as Hlive'
    by (by apply (committed_live m orderID _ l o)).
  split.
  - by rewrite (mock_DeleteItem_live NewV7 clock m orderID itemID l o pre post item).
  - eapply DeleteItem_absent; cbn [step mock.env on_Find].
    + by eapply mock_Find_live.
    + by destruct Hlive' as (_ & ? & _).
    + done.
    + cbn [Order.Items o']. by apply Forall_app.
Qed.

Lemma DeleteItem_twice_witness :
  exists m',
    fst (run scenario.env (DeleteItem 100%N 101%N) scenario.with_two_items)
      = (Done None, m') /\
    fst (fst (run scenario.env (DeleteItem 100%N 101%N) m'))
      = Done (Some ErrItemNotFound).
Proof.
  destruct (DeleteItem_twice scenario.NewV7 scenario.clock scenario.with_two_items
              100%N 101%N 1%positive
              (Order.mk 100%N 7%N Open [Item.mk 101%N 55%N 10; Item.mk 102%N 56%N 20]
                        1000 1002 None)
              [] [Item.mk 102%N 56%N 20] (Item.mk 101%N 55%N 10)
              (conj eq_refl (conj eq_refl eq_refl)) eq_refl eq_refl eq_refl
              (Forall_nil_2 _) ltac:(by repeat constructor))
    as [Hfirst Hsecond].
  eexists. split; [exact Hfirst|].
  exact (f_equal (fun r => fst (fst r)) Hsecond).
Defined.

(** ** The dispatcher and the repository of the tests *)

Section Recorded.
Variable NewV7 : nat -> UUID * error.
Variable clock : nat -> Time.

Lemma CreateOrder_recorded (customerID : UUID) :
  records_dispatched (mock.env NewV7 clock) (CreateOrder customerID).
Proof.
  intros m m' out t. split; intros Hrun; unfold CreateOrder in Hrun; recorded Hrun.
Qed.

Lemma DeleteOrder_recorded (orderID : UUID) :
  records_dispatched (mock.env NewV7 clock) (DeleteOrder orderID).
Proof.
  intros m m' out t. split; intros Hrun; unfold DeleteOrder in Hrun; recorded Hrun.
Qed.

Lemma SetStatus_recorded (orderID : UUID) (status : OrderStatus) :
  records_dispatched (mock.env NewV7 clock) (SetStatus orderID status).
Proof.
  intros m m' out t. split; intros Hrun; unfold SetStatus in Hrun; recorded Hrun.
Qed.

Lemma AddItem_recorded (orderID productID : UUID) (price : float64) :
  records_dispatched (mock.env NewV7 clock) (AddItem orderID productID price).
Proof.
  intros m m' out t. split; intros Hrun; unfold AddItem in Hrun; recorded Hrun.
Qed.

Lemma DeleteItem_recorded (orderID itemID : UUID) :
  records_dispatched (mock.env NewV7 clock) (DeleteItem orderID itemID).
Proof.
  intros m m' out t. split; intros Hrun; unfold DeleteItem in Hrun; recorded Hrun.
Qed.

End Recorded.

(** X16. The dispatcher of the tests records exactly what the service
    dispatches: after any run of an operation, [GetEvents] answers what it
    answered before followed by the events of the run, in order, and it
    refused none of them; after [Clear] it answers the events of the run
    alone. *)
Theorem dispatcher_records_the_dispatched (NewV7 : nat -> UUID * error)
        (clock : nat -> Time) :
  (forall customerID,
      records_dispatched (mock.env NewV7 clock) (CreateOrder customerID)) /\
  (forall orderID,
      records_dispatched (mock.env NewV7 clock) (DeleteOrder orderID)) /\
  (forall orderID status,
      records_dispatched (mock.env NewV7 clock) (SetStatus orderID status)) /\
  (forall orderID productID price,
      records_dispatched (mock.env NewV7 clock) (AddItem orderID productID price)) /\
  (forall orderID itemID,
      records_dispatched (mock.env NewV7 clock) (DeleteItem orderID itemID)).
Proof.
  split; [|split; [|split; [|split]]]; intros.
  - apply CreateOrder_recorded.
  - apply DeleteOrder_recorded.
  - apply SetStatus_recorded.
  - apply AddItem_recorded.
  - apply DeleteItem_recorded.
Qed.

Lemma dispatcher_records_the_dispatched_witness :
  mock.GetEvents
    (snd (fst (run scenario.env (SetStatus 100%N Paid) (mock.Clear scenario.created))))
  = [OrderStatusChanged 100%N Paid].
Proof.
  destruct (dispatcher_records_the_dispatched scenario.NewV7 scenario.clock)
    as (_ & _ & HSetStatus & _).
  pose (r := run scenario.env (SetStatus 100%N Paid) (mock.Clear scenario.created)).
  exact (proj2 (HSetStatus 100%N Paid scenario.created (snd (fst r)) (fst (fst r))
                           (snd r)) eq_refl).
Defined.

(** X17. [Store] of the repository of the tests files the order under the
    identifier the order carries, whatever was filed there, and touches
    nothing else; a [Find] of that identifier then answers the very pointer
    stored, unless the order stored is soft-deleted, in which case it answers
    [ErrOrderNotFound].  [Store] never answers an error; on a nil pointer it
    panics. *)
Theorem Store_then_Find (m : Mem mock.State) (l : loc) (o : Order.t) :
  heap m !! l = Some o ->
  mock.Store None m = None /\
  exists m',
    mock.Store (Some l) m = Some (None, m') /\
    heap m' = heap m /\
    mock.GetEvents m' = mock.GetEvents m /\
    mock.store (ext m') !! Order.ID o = Some (Some l) /\
    (forall id, id <> Order.ID o ->
                mock.store (ext m') !! id = mock.store (ext m) !! id) /\
    (Order.DeletedAt o = None ->
     mock.Find (Order.ID o) m' = Some ((Some l, None), m')) /\
    (Order.DeletedAt o <> None ->
     mock.Find (Order.ID o) m' = Some ((None, Some ErrOrderNotFound), m')).
Proof.
  intros Ho. split; [done|]. unfold mock.Store. cbn [deref]. rewrite Ho.
  eexists. split; [done|]. split; [done|]. split; [done|].
  cbn [ext mock.store]. split; [apply lookup_insert_eq|].
  split; [by intros id Hne; rewrite lookup_insert_ne|].
  unfold mock.Find. cbn [ext mock.store]. rewrite lookup_insert_eq.
  cbn [deref heap]. rewrite Ho.
  split; intros Hdel.
  - rewrite decide_False; [done|]. by intros [].
  - by rewrite decide_True.
Qed.

Lemma Store_then_Find_witness :
  heap duplicates.mem !! 1%positive = Some duplicates.order /\
  exists m',
    mock.Store (Some 1%positive) duplicates.mem = Some (None, m') /\
    mock.Find 100%N m' = Some ((Some 1%positive, None), m').
Proof.
  split; [reflexivity|].
  destruct (Store_then_Find duplicates.mem 1%positive duplicates.order eq_refl)
    as (_ & m' & HStore & _ & _ & _ & _ & HFind & _).
  exists m'. split; [exact HStore | exact (HFind eq_refl)].
Defined.

(** X18. [Find] of the repository of the tests never changes the memory.
    When it answers, it answers either a nil error with the pointer filed
    under the identifier, to an order that is not soft-deleted, or a nil
    pointer with [ErrOrderNotFound]; and [Delete] succeeds on an identifier
    exactly when [Find] does. *)
Theorem Find_reads_only (clock : nat -> Time) (m m' : Mem mock.State)
        (id : UUID) (p : ptr) (err : error) :
  mock.Find id m = Some ((p, err), m') ->
  m' = m /\
  ((err = None /\
    exists l o, p = Some l /\ mock.store (ext m) !! id = Some (Some l) /\
                heap m !! l = Some o /\ Order.DeletedAt o = None) \/
   (err = Some ErrOrderNotFound /\ p = None)) /\
  (err = None <-> exists m2, mock.Delete clock id m = Some (None, m2)).
Proof.
  unfold mock.Find, mock.Delete. intros HFind.
  destruct (mock.store (ext m) !! id) as [[l|]|] eqn:Hst; cbn [deref] in *;
    [|done|].
  - destruct (heap m !! l) as [o|] eqn:Ho; [|done].
    unfold write. cbn [heap]. rewrite Ho.
    case_decide as Hdel; simplify_eq.
    + split; [done|]. split; [by right|]. split; [done|]. by intros [m2 ?].
    + split; [done|]. split.
      * left. split; [done|]. by exists l, o.
      * split; [by eexists | done].
  - simplify_eq. split; [done|]. split; [by right|]. split; [done|]. by intros [m2 ?].
Qed.

Lemma Find_reads_only_witness :
  mock.Find 100%N scenario.created = Some ((Some 1%positive, None), scenario.created) /\
  exists m2, mock.Delete scenario.clock 100%N scenario.created = Some (None, m2).
Proof.
  split; [reflexivity|].
  exact (proj1 (proj2 (proj2 (Find_reads_only scenario.clock scenario.created
                                scenario.created 100%N (Some 1%positive) None
                                eq_refl))) eq_refl).
Defined.

(** X19. On the repository of the tests, whenever [uuid.NewV7] answers an
    identifier without error, [CreateOrder] succeeds from any memory and the
    new order can be found under that identifier afterwards: an open order
    without items, in a record of its own, with one [OrderCreated] recorded.
    An order that was filed under that identifier before, soft-deleted or
    not, is replaced. *)
Theorem CreateOrder_then_Find (NewV7 : nat -> UUID * error) (clock : nat -> Time)
        (m : Mem mock.State) (customerID orderID : UUID) :
  NewV7 (mock.drawn (ext m)) = (orderID, None) ->
  exists (m' : Mem mock.State) (l : loc),
    fst (run (mock.env NewV7 clock) (CreateOrder customerID) m)
      = (Done (orderID, None), m') /\
    heap m !! l = None /\
    mock.Find orderID m' = Some ((Some l, None), m') /\
    heap m' !! l
      = Some (Order.mk orderID customerID Open [] (clock (ticks m)) (clock (ticks m))
                       None) /\
    mock.GetEvents m' = mock.GetEvents m ++ [OrderCreated orderID customerID].
Proof.
  intros Hid.
  set (m1 := mkMem (heap m) (ticks m)
                   (mock.mkState (mock.store (ext m)) (mock.events (ext m))
                                 (Datatypes.S (mock.drawn (ext m))))).
  eexists _, (fresh (dom (heap m))). split.
  { erewrite (CreateOrder_run (mock.env NewV7 clock) m m1 _ _ customerID orderID None);
      [reflexivity | | |];
      cbn [step mock.env on_NextID on_Store on_Dispatch wall_clock].
    - unfold mock.NextID. rewrite Hid. reflexivity.
    - unfold mock.Store, touch. cbn [deref heap]. rewrite lookup_insert_eq.
      reflexivity.
    - reflexivity. }
  split.
  { apply not_elem_of_dom. apply is_fresh. }
  split; [|split; [apply lookup_insert_eq | reflexivity]].
  unfold mock.Find. cbn [ext mock.store Order.ID]. rewrite lookup_insert_eq.
  cbn [deref heap m1]. by rewrite lookup_insert_eq.
Qed.

Lemma CreateOrder_then_Find_witness :
  (* the order 100 is soft-deleted; the identifier 100 is handed out again *)
  mock.Find 100%N tombstone.mem = Some ((None, Some ErrOrderNotFound), tombstone.mem) /\
  exists m' l,
    fst (run (mock.env (fun _ => (100%N, None)) scenario.clock) (CreateOrder 9%N)
             tombstone.mem)
      = (Done (100%N, None), m') /\
    mock.Find 100%N m' = Some ((Some l, None), m') /\
    heap m' !! l = Some (Order.mk 100%N 9%N Open [] 1002 1002 None).
Proof.
  pose (deleted := tombstone.mem). split; [reflexivity|].
  destruct (CreateOrder_then_Find (fun _ => (100%N, None)) scenario.clock deleted
              9%N 100%N eq_refl) as (m' & l & Hrun & _ & HFind & Ho & _).
  exists m', l. split; [exact Hrun|]. split; [exact HFind | exact Ho].
Defined.
